(** * apiAWS: the request handlers of [server.js]

    [server.js] binds ten HTTP routes to handlers.  Every handler makes at
    most one call to a collaborator (the mongoose model [User] or the S3
    client [s3]), awaits the promise, and maps the outcome to one HTTP
    response; failures are logged through [./logger].

    What the file does once at start-up (connecting mongoose, configuring
    the SDK, mounting the documentation, listening on port 3000) is outside
    the handlers and is not modelled.

    The development has three layers:
    - the values that flow through a handler (JSON, requests, responses,
      the ordered trace of what a handler did);
    - the handlers themselves, written in a small state-and-exception monad
      over an arbitrary implementation of the two collaborators;
    - a finite-map model of the two stores, to run the handlers end to end. *)

From stdpp Require Import base strings list gmap fin_maps.
From Stdlib Require Import ZArith.

Open Scope string_scope.
Open Scope Z_scope.

Set Warnings "-register-all".

(** ** JSON values

    Bodies parsed by [express.json()] and values passed to [res.json].
    An object keeps its fields in order, as [JSON.stringify] emits them. *)

Inductive json : Type :=
| JNull
| JBool (b : bool)
| JNum (n : Z)
| JStr (s : string)
| JArr (xs : list json)
| JObj (fields : list (string * json)).

(** [obj[k]] for a parsed body: the value of field [k], [None] for
    [undefined] (also when [obj] is not an object). *)
Fixpoint assoc_get (k : string) (l : list (string * json)) : option json :=
  match l with
  | [] => None
  | (k', v) :: l' => if String.eqb k k' then Some v else assoc_get k l'
  end.

Definition json_get (k : string) (obj : json) : option json :=
  match obj with
  | JObj l => assoc_get k l
  | _ => None
  end.

(** ** Errors and promises *)

(** A JavaScript [Error]: its [name] and its [message]. *)
Record js_error : Type := JsError { err_name : string; err_message : string }.

(** The state a promise settles in; [await] returns the value of a
    fulfilled promise and throws the reason of a rejected one. *)
Inductive settled (A : Type) : Type :=
| Fulfilled (a : A)
| Rejected (e : js_error).
Arguments Fulfilled {A} a.
Arguments Rejected {A} e.

Definition rejection {A : Type} (r : settled A) : option js_error :=
  match r with
  | Fulfilled _ => None
  | Rejected e => Some e
  end.

(** ** Requests and responses *)

(** [req.file] as multer's memory storage leaves it. *)
Record uploaded_file : Type := UploadedFile {
  originalname : string;
  buffer : string;
  mimetype : string
}.

Record request : Type := Request {
  method : string;
  path : string;
  params : gmap string string;
  body : json;
  file : option uploaded_file
}.

(** [req.params.name]; express fills every named segment of the matched
    route, so the default is never read on a routed request. *)
Definition param (name : string) (req : request) : string :=
  default "" (params req !! name).

(** What was written to the socket: [res.send] with a string writes the
    text as it is, [res.json] writes [JSON.stringify] of the value. *)
Inductive payload : Type :=
| Text (s : string)
| Json (v : json).

Record response : Type := Response { status : Z; content : payload }.

(** The [Content-Type] express sets for each of the two calls. *)
Definition content_type (p : payload) : string :=
  match p with
  | Text _ => "text/html"
  | Json _ => "application/json"
  end.

(** A body is JSON when it goes out as [application/json]. *)
Definition is_json (p : payload) : bool :=
  String.eqb (content_type p) "application/json".

(** The least a text must do to parse as JSON: after white space, start
    with a bracket, a brace, a quote, a minus sign, a digit, or the first
    letter of [true], [false] or [null]. *)
Definition is_json_space (a : Ascii.ascii) : bool :=
  let n := Ascii.nat_of_ascii a in
  ((n =? 32) || (n =? 9) || (n =? 10) || (n =? 13))%nat.

Definition starts_json_value (a : Ascii.ascii) : bool :=
  let n := Ascii.nat_of_ascii a in
  ((n =? 123) || (n =? 91) || (n =? 34) || (n =? 45)
   || (48 <=? n) && (n <=? 57)
   || (n =? 116) || (n =? 102) || (n =? 110))%nat.

Fixpoint may_parse_as_json (s : string) : bool :=
  match s with
  | EmptyString => false
  | String a rest =>
      if is_json_space a then may_parse_as_json rest else starts_json_value a
  end.

(** ** Documents of the [Usuario] collection *)

(** A stored user: the identifier and the values of its schema paths. *)
Record user : Type := User { _id : string; fields : gmap string string }.

(** What [new User(body)] builds: a document, and the validation error that
    [save] will reject with when a supplied value could not be cast. *)
Record document : Type := Document {
  doc : user;
  validationError : option js_error
}.

(** [UserSchema]: [{ nome: String, email: String }]. *)
Inductive schema_type : Type := SchemaString.

Definition UserSchema : list (string * schema_type) :=
  [("nome", SchemaString); ("email", SchemaString)].

(** A document serialises its identifier and then its schema paths, in the
    order of the schema.  (The version key mongoose maintains next to them
    is left out.) *)
Definition fields_toJSON (f : gmap string string) : list (string * json) :=
  omap (fun '(p, _) => (fun v => (p, JStr v)) <$> f !! p) UserSchema.

Definition user_toJSON (u : user) : json :=
  JObj (("_id", JStr (_id u)) :: fields_toJSON (fields u)).

(** ** Results of the collaborator calls *)

Record delete_result : Type := DeleteResult { deletedCount : Z }.

Record list_buckets_output : Type := ListBucketsOutput { Buckets : list json }.

Record list_objects_output : Type := ListObjectsOutput { Contents : list json }.

Record upload_params : Type := UploadParams {
  Bucket : string;
  Key : string;
  Body : string;
  ContentType : string
}.

(** ** The trace of a handler *)

(** A collaborator call as the handler issued it, with its arguments. *)
Inductive call : Type :=
| Call_findOne
| Call_save (d : document)
| Call_find
| Call_findById (id : string)
| Call_findByIdAndUpdate (id : string) (update : json) (new : bool)
| Call_deleteOne (id : string)
| Call_listBuckets
| Call_listObjectsV2 (bucket : string)
| Call_upload (p : upload_params)
| Call_deleteObject (bucket key : string).

Inductive level : Type := info | error.

(** Modelled from the spec: [./logger] is not among the sources.  A log
    event has a level, a message, the optional request context (method and
    path) and the optional error detail; the sink is append-only and
    [logInfo] and [logError] do not throw. *)
Record log_event : Type := LogEvent {
  log_level : level;
  log_message : string;
  log_context : option (string * string);
  log_detail : option js_error
}.

Definition context_of (req : request) : string * string :=
  (method req, path req).

(** Everything a handler does that is visible from outside, in order:
    the call it awaited and how the promise settled ([None]: fulfilled),
    lines on the logger, lines on [console.error], responses sent. *)
Inductive event : Type :=
| Awaited (c : call) (rejected : option js_error)
| Logged (l : log_event)
| Console (msg : string) (e : js_error)
| Sent (r : response).

Definition responses (t : list event) : list response :=
  omap (fun ev => match ev with Sent r => Some r | _ => None end) t.

Definition calls (t : list event) : list call :=
  omap (fun ev => match ev with Awaited c _ => Some c | _ => None end) t.

(** ** The collaborators

    The handlers close over [User] and [s3]; here they are the two
    interfaces below, over the state [S] of whatever stands behind them.
    An operation takes the state and returns how its promise settles and
    the state it leaves. *)

Class DocumentStore (S : Type) : Type := {
  User_new : json -> S -> document * S;
  User_save : document -> S -> settled unit * S;
  User_findOne : S -> settled (option user) * S;
  User_find : S -> settled (list user) * S;
  User_findById : string -> S -> settled (option user) * S;
  User_findByIdAndUpdate :
    string -> json -> bool -> S -> settled (option user) * S;
  User_deleteOne : string -> S -> settled delete_result * S
}.

Class ObjectStore (S : Type) : Type := {
  s3_listBuckets : S -> settled list_buckets_output * S;
  s3_listObjectsV2 : string -> S -> settled list_objects_output * S;
  s3_upload : upload_params -> S -> settled json * S;
  s3_deleteObject : string -> string -> S -> settled unit * S
}.

(** ** The handler monad *)

(** The state a handler runs in: the stores, [res.statusCode], and the
    trace so far (oldest event first). *)
Record world (S : Type) : Type := World {
  stores : S;
  statusCode : Z;
  trace : list event
}.
Arguments World {S} stores statusCode trace.
Arguments stores {S} w.
Arguments statusCode {S} w.
Arguments trace {S} w.

Definition M (S A : Type) : Type := world S -> settled A * world S.

Definition ret {S A : Type} (a : A) : M S A := fun w => (Fulfilled a, w).

Definition bind {S A B : Type} (m : M S A) (k : A -> M S B) : M S B :=
  fun w =>
    match m w with
    | (Fulfilled a, w') => k a w'
    | (Rejected e, w') => (Rejected e, w')
    end.

(** [try { m } catch (error) { h error }] *)
Definition try_catch {S A : Type} (m : M S A) (h : js_error -> M S A) : M S A :=
  fun w =>
    match m w with
    | (Fulfilled a, w') => (Fulfilled a, w')
    | (Rejected e, w') => h e w'
    end.

Declare Scope handler_scope.
Delimit Scope handler_scope with handler.
Notation "'let*' x ':=' m 'in' k" := (bind m (fun x => k))
  (at level 10, x name, m at level 100, k at level 200) : handler_scope.
Notation "m ';;' k" := (bind m (fun _ => k))
  (at level 100, k at level 200, right associativity) : handler_scope.
Notation "'try' m 'catch' x '=>' h" := (try_catch m (fun x => h))
  (at level 10, x name, m at level 200, h at level 200) : handler_scope.

Definition emit {S : Type} (ev : event) : M S unit :=
  fun w => (Fulfilled tt, World (stores w) (statusCode w) (trace w ++ [ev])).

(** [await op]: run the collaborator on the stores, note the call and how
    it settled, and return the value or throw the reason. *)
Definition await {S A : Type} (c : call) (op : S -> settled A * S) : M S A :=
  fun w =>
    let '(r, s') := op (stores w) in
    (r, World s' (statusCode w) (trace w ++ [Awaited c (rejection r)])).

(** A synchronous use of a collaborator (a constructor): no promise. *)
Definition local {S A : Type} (op : S -> A * S) : M S A :=
  fun w =>
    let '(a, s') := op (stores w) in
    (Fulfilled a, World s' (statusCode w) (trace w)).

(** [res.status(n)] *)
Definition res_status {S : Type} (n : Z) : M S unit :=
  fun w => (Fulfilled tt, World (stores w) n (trace w)).

(** [res.json(v)] and [res.send(s)] answer with the current status code. *)
Definition res_json {S : Type} (v : json) : M S unit :=
  fun w => emit (Sent (Response (statusCode w) (Json v))) w.

Definition res_send {S : Type} (s : string) : M S unit :=
  fun w => emit (Sent (Response (statusCode w) (Text s))) w.

(** Modelled from the spec: [logInfo(message, req)] and
    [logError(message, req, error)] of [./logger] append one event each. *)
Definition logInfo {S : Type} (msg : string) (req : request) : M S unit :=
  emit (Logged (LogEvent info msg (Some (context_of req)) None)).

Definition logError {S : Type} (msg : string) (req : request) (e : js_error)
  : M S unit :=
  emit (Logged (LogEvent error msg (Some (context_of req)) (Some e))).

Definition console_error {S : Type} (msg : string) (e : js_error) : M S unit :=
  emit (Console msg e).

(** A fresh response object has status code 200. *)
Definition run {S A : Type} (m : M S A) (s : S) : settled A * world S :=
  m (World s 200 []).

(** ** The handlers *)

Section Handlers.
Context {S : Type} `{!DocumentStore S} `{!ObjectStore S}.

Local Open Scope handler_scope.

(** [GET /mongodb/testar-conexao] *)
Definition testar_conexao (req : request) : M S unit :=
  try
    (let* user := await Call_findOne User_findOne in
     logInfo "Teste conexão MongoDB OK" req ;;
     if user is Some _ then
       res_status 200 ;;
       res_send "Conexão com MongoDB OK - Usuário encontrado."
     else
       res_status 200 ;;
       res_send "Conexão com MongoDB OK - Nenhum usuário encontrado.")
  catch error =>
    (console_error "Erro detalhado:" error ;;
     logError "Erro no teste MongoDB" req error ;;
     res_status 500 ;;
     res_send "Erro na conexão com o MongoDB.").

(** [POST /usuarios] *)
Definition post_usuarios (req : request) : M S unit :=
  try
    (let* user := local (User_new (body req)) in
     await (Call_save user) (User_save user) ;;
     logInfo "Usuário criado" req ;;
     res_status 201 ;;
     res_json (user_toJSON (doc user)))
  catch error =>
    (logError "Erro ao criar usuário" req error ;;
     res_status 500 ;;
     res_json (JObj [("error", JStr "Erro ao criar usuário.")])).

(** [GET /usuarios] *)
Definition get_usuarios (req : request) : M S unit :=
  try
    (let* users := await Call_find User_find in
     res_json (JArr (user_toJSON <$> users)))
  catch error =>
    (logError "Erro ao listar usuários" req error ;;
     res_status 500 ;;
     res_json (JObj [("error", JStr "Erro ao listar usuários.")])).

(** [GET /usuarios/:id] *)
Definition get_usuarios_id (req : request) : M S unit :=
  try
    (let* user :=
       await (Call_findById (param "id" req))
             (User_findById (param "id" req)) in
     match user with
     | None =>
         res_status 404 ;;
         res_json (JObj [("error", JStr "Usuário não encontrado.")])
     | Some user => res_json (user_toJSON user)
     end)
  catch error =>
    (logError "Erro ao buscar usuário" req error ;;
     res_status 500 ;;
     res_json (JObj [("error", JStr "Erro ao buscar usuário.")])).

(** [PUT /usuarios/:id] *)
Definition put_usuarios_id (req : request) : M S unit :=
  try
    (let* user :=
       await (Call_findByIdAndUpdate (param "id" req) (body req) true)
             (User_findByIdAndUpdate (param "id" req) (body req) true) in
     match user with
     | None =>
         res_status 404 ;;
         res_json (JObj [("error", JStr "Usuário não encontrado.")])
     | Some user => res_json (user_toJSON user)
     end)
  catch error =>
    (logError "Erro ao atualizar usuário" req error ;;
     res_status 500 ;;
     res_json (JObj [("error", JStr "Erro ao atualizar usuário.")])).

(** [DELETE /usuarios/:id] *)
Definition delete_usuarios_id (req : request) : M S unit :=
  try
    (let* result :=
       await (Call_deleteOne (param "id" req))
             (User_deleteOne (param "id" req)) in
     if deletedCount result =? 0 then
       res_status 404 ;;
       res_json (JObj [("error", JStr "Usuário não encontrado.")])
     else
       res_json (JObj [("message", JStr "Usuário removido com sucesso.")]))
  catch error =>
    (logError "Erro ao remover usuário" req error ;;
     res_status 500 ;;
     res_json (JObj [("error", JStr "Erro ao remover usuário.")])).

(** [GET /buckets] *)
Definition get_buckets (req : request) : M S unit :=
  try
    (let* data := await Call_listBuckets s3_listBuckets in
     res_json (JArr (Buckets data)))
  catch error =>
    (logError "Erro ao listar buckets" req error ;;
     res_status 500 ;;
     res_json (JObj [("error", JStr "Erro ao listar buckets.")])).

(** [GET /buckets/:bucketName] *)
Definition get_buckets_bucketName (req : request) : M S unit :=
  let params := param "bucketName" req in
  try
    (let* data := await (Call_listObjectsV2 params) (s3_listObjectsV2 params) in
     res_json (JArr (Contents data)))
  catch error =>
    (logError "Erro ao listar objetos" req error ;;
     res_status 500 ;;
     res_json (JObj [("error", JStr "Erro ao listar objetos.")])).

(** [POST /buckets/:bucketName/upload], after [upload.single('file')] *)
Definition post_buckets_upload (req : request) : M S unit :=
  let bucketName := param "bucketName" req in
  match file req with
  | None =>
      res_status 400 ;;
      res_json (JObj [("error", JStr "Nenhum arquivo enviado.")])
  | Some f =>
      let params :=
        {| Bucket := bucketName;
           Key := originalname f;
           Body := buffer f;
           ContentType := mimetype f |} in
      try
        (let* data := await (Call_upload params) (s3_upload params) in
         res_json (JObj [("message", JStr "Upload concluído."); ("data", data)]))
      catch error =>
        (logError "Erro no upload" req error ;;
         res_status 500 ;;
         res_json (JObj [("error", JStr "Erro ao enviar arquivo.")]))
  end.

(** [DELETE /buckets/:bucketName/file/:fileName] *)
Definition delete_buckets_file (req : request) : M S unit :=
  let bucketName := param "bucketName" req in
  let fileName := param "fileName" req in
  try
    (await (Call_deleteObject bucketName fileName)
           (s3_deleteObject bucketName fileName) ;;
     res_json (JObj [("message", JStr "Arquivo removido.")]))
  catch error =>
    (logError "Erro ao remover arquivo" req error ;;
     res_status 500 ;;
     res_json (JObj [("error", JStr "Erro ao remover arquivo.")])).

End Handlers.

(** ** The routing table *)

Inductive route : Type :=
| Testar_conexao
| Post_usuarios
| Get_usuarios
| Get_usuarios_id
| Put_usuarios_id
| Delete_usuarios_id
| Get_buckets
| Get_buckets_bucketName
| Post_buckets_upload
| Delete_buckets_file.

(** The [app.get], [app.post], [app.put] and [app.delete] bindings, in the
    order of the file. *)
Definition routes : list (string * string * route) :=
  [ ("GET", "/mongodb/testar-conexao", Testar_conexao);
    ("POST", "/usuarios", Post_usuarios);
    ("GET", "/usuarios", Get_usuarios);
    ("GET", "/usuarios/:id", Get_usuarios_id);
    ("PUT", "/usuarios/:id", Put_usuarios_id);
    ("DELETE", "/usuarios/:id", Delete_usuarios_id);
    ("GET", "/buckets", Get_buckets);
    ("GET", "/buckets/:bucketName", Get_buckets_bucketName);
    ("POST", "/buckets/:bucketName/upload", Post_buckets_upload);
    ("DELETE", "/buckets/:bucketName/file/:fileName", Delete_buckets_file) ].

Definition handler {S : Type} `{!DocumentStore S} `{!ObjectStore S}
  (r : route) : request -> M S unit :=
  match r with
  | Testar_conexao => testar_conexao
  | Post_usuarios => post_usuarios
  | Get_usuarios => get_usuarios
  | Get_usuarios_id => get_usuarios_id
  | Put_usuarios_id => put_usuarios_id
  | Delete_usuarios_id => delete_usuarios_id
  | Get_buckets => get_buckets
  | Get_buckets_bucketName => get_buckets_bucketName
  | Post_buckets_upload => post_buckets_upload
  | Delete_buckets_file => delete_buckets_file
  end.

(** The trace of one request on route [r], from stores in state [s]. *)
Definition trace_of {S : Type} `{!DocumentStore S} `{!ObjectStore S}
  (r : route) (req : request) (s : S) : list event :=
  trace (run (handler r req) s).2.

(** The two constants of each [catch] block: the message handed to
    [logError] and the body sent with the 500. *)
Definition catch_log (r : route) : string :=
  match r with
  | Testar_conexao => "Erro no teste MongoDB"
  | Post_usuarios => "Erro ao criar usuário"
  | Get_usuarios => "Erro ao listar usuários"
  | Get_usuarios_id => "Erro ao buscar usuário"
  | Put_usuarios_id => "Erro ao atualizar usuário"
  | Delete_usuarios_id => "Erro ao remover usuário"
  | Get_buckets => "Erro ao listar buckets"
  | Get_buckets_bucketName => "Erro ao listar objetos"
  | Post_buckets_upload => "Erro no upload"
  | Delete_buckets_file => "Erro ao remover arquivo"
  end.

Definition catch_body (r : route) : payload :=
  match r with
  | Testar_conexao => Text "Erro na conexão com o MongoDB."
  | Post_usuarios => Json (JObj [("error", JStr "Erro ao criar usuário.")])
  | Get_usuarios => Json (JObj [("error", JStr "Erro ao listar usuários.")])
  | Get_usuarios_id => Json (JObj [("error", JStr "Erro ao buscar usuário.")])
  | Put_usuarios_id => Json (JObj [("error", JStr "Erro ao atualizar usuário.")])
  | Delete_usuarios_id => Json (JObj [("error", JStr "Erro ao remover usuário.")])
  | Get_buckets => Json (JObj [("error", JStr "Erro ao listar buckets.")])
  | Get_buckets_bucketName => Json (JObj [("error", JStr "Erro ao listar objetos.")])
  | Post_buckets_upload => Json (JObj [("error", JStr "Erro ao enviar arquivo.")])
  | Delete_buckets_file => Json (JObj [("error", JStr "Erro ao remover arquivo.")])
  end.

(** What the [catch] block puts on the trace before it answers: the probe
    also writes the error to the console. *)
Definition catch_logging (r : route) (req : request) (e : js_error)
  : list event :=
  match r with
  | Testar_conexao => [Console "Erro detalhado:" e]
  | _ => []
  end ++ [Logged (LogEvent error (catch_log r) (Some (context_of req)) (Some e))].

(** ** A model of the two stores

    mongoose and the AWS SDK are libraries: their code is not in the
    repository.  The model below gives the two collaborators the behaviour
    the specification describes for them (its interfaces of the document
    store client and of the object store client, and its error taxonomy):
    a collection is a finite map from identifiers to field maps, a bucket a
    finite map from keys to objects, and either service can be down, in
    which case every call rejects.  Three things the driver decides are
    left as parameters. *)

Record driver : Type := Driver {
  (** the [String] caster of a schema path; [None] is a [CastError] *)
  castString : json -> option string;
  (** whether a string casts to an [ObjectId] *)
  isValidObjectId : string -> bool;
  (** the identifier the [n]-th constructed document receives *)
  newObjectId : nat -> string
}.

Record mongo_state : Type := MongoState {
  users : gmap string (gmap string string);
  constructed : nat;
  mongo_down : option js_error
}.

Record s3_object : Type := S3Object { object_body : string; object_type : string }.

Record s3_state : Type := S3State {
  buckets : gmap string (gmap string s3_object);
  s3_down : option js_error
}.

Record cloud : Type := Cloud { mongo : mongo_state; s3 : s3_state }.

Definition CastError : js_error := JsError "CastError" "Cast failed".
Definition ValidationError : js_error :=
  JsError "ValidationError" "Usuario validation failed".
Definition DuplicateKey : js_error :=
  JsError "MongoServerError" "E11000 duplicate key error".
Definition NoSuchBucket : js_error :=
  JsError "NoSuchBucket" "The specified bucket does not exist".

Section Model.
Variable drv : driver.

Definition cast (ty : schema_type) (v : json) : option string :=
  match ty with
  | SchemaString => castString drv v
  end.

(** Strict schema: only the paths of the schema are read from [obj]; the
    result is the cast values and the paths whose value failed to cast. *)
Fixpoint cast_fields (schema : list (string * schema_type)) (obj : json)
  : gmap string string * list string :=
  match schema with
  | [] => (∅, [])
  | (p, ty) :: rest =>
      let '(f, bad) := cast_fields rest obj in
      match json_get p obj with
      | None => (f, bad)
      | Some v =>
          match cast ty v with
          | Some s => (<[p := s]> f, bad)
          | None => (f, p :: bad)
          end
      end
  end.

(** Modelled from the spec: [new User(body)], mongoose's constructor.  The
    document gets its identifier here and keeps the schema paths of [body]. *)
Definition mongo_new (body : json) (st : mongo_state) : document * mongo_state :=
  let '(f, bad) := cast_fields UserSchema body in
  (Document (User (newObjectId drv (constructed st)) f)
            (if bad is [] then None else Some ValidationError),
   MongoState (users st) (Datatypes.S (constructed st)) (mongo_down st)).

(** Modelled from the spec: [document.save()], the store's
    [create(fields) -> record|StoreError]. *)
Definition mongo_save (d : document) (st : mongo_state)
  : settled unit * mongo_state :=
  match validationError d with
  | Some e => (Rejected e, st)
  | None =>
      match mongo_down st with
      | Some e => (Rejected e, st)
      | None =>
          match users st !! _id (doc d) with
          | Some _ => (Rejected DuplicateKey, st)
          | None =>
              (Fulfilled tt,
               MongoState (<[_id (doc d) := fields (doc d)]> (users st))
                          (constructed st) (mongo_down st))
          end
      end
  end.

Definition all_users (st : mongo_state) : list user :=
  (fun '(id, f) => User id f) <$> map_to_list (users st).

(** Modelled from the spec: [User.findOne()], the store's
    [probe() -> record|None|StoreError]. *)
Definition mongo_findOne (st : mongo_state)
  : settled (option user) * mongo_state :=
  match mongo_down st with
  | Some e => (Rejected e, st)
  | None => (Fulfilled (head (all_users st)), st)
  end.

(** Modelled from the spec: [User.find()], the store's
    [findAll() -> sequence<record>|StoreError]. *)
Definition mongo_find (st : mongo_state) : settled (list user) * mongo_state :=
  match mongo_down st with
  | Some e => (Rejected e, st)
  | None => (Fulfilled (all_users st), st)
  end.

(** Modelled from the spec: [User.findById(id)], the store's
    [findById(id) -> record|NotFound|StoreError]; a malformed id is a
    store error. *)
Definition mongo_findById (id : string) (st : mongo_state)
  : settled (option user) * mongo_state :=
  if negb (isValidObjectId drv id) then (Rejected CastError, st)
  else
    match mongo_down st with
    | Some e => (Rejected e, st)
    | None => (Fulfilled (User id <$> users st !! id), st)
    end.

(** Modelled from the spec: [User.findByIdAndUpdate(id, update, { new })],
    the store's [updateById(id, fields) -> record|NotFound|StoreError].  The
    paths of the schema that [update] supplies are set, the others stay;
    [new] chooses between the record after and before the update. *)
Definition mongo_findByIdAndUpdate (id : string) (update : json) (new : bool)
  (st : mongo_state) : settled (option user) * mongo_state :=
  if negb (isValidObjectId drv id) then (Rejected CastError, st)
  else
    let '(set, bad) := cast_fields UserSchema update in
    if bad is [] then
      match mongo_down st with
      | Some e => (Rejected e, st)
      | None =>
          match users st !! id with
          | None => (Fulfilled None, st)
          | Some old =>
              (Fulfilled (Some (User id (if new then set ∪ old else old))),
               MongoState (<[id := set ∪ old]> (users st))
                          (constructed st) (mongo_down st))
          end
      end
    else (Rejected CastError, st).

(** Modelled from the spec: [User.deleteOne({ _id: id })], the store's
    [deleteById(id) -> count|StoreError]. *)
Definition mongo_deleteOne (id : string) (st : mongo_state)
  : settled delete_result * mongo_state :=
  if negb (isValidObjectId drv id) then (Rejected CastError, st)
  else
    match mongo_down st with
    | Some e => (Rejected e, st)
    | None =>
        match users st !! id with
        | None => (Fulfilled (DeleteResult 0), st)
        | Some _ =>
            (Fulfilled (DeleteResult 1),
             MongoState (delete id (users st)) (constructed st) (mongo_down st))
        end
    end.

Definition on_mongo {A : Type} (op : mongo_state -> A * mongo_state)
  (c : cloud) : A * cloud :=
  let '(a, m') := op (mongo c) in (a, Cloud m' (s3 c)).

#[export] Instance cloud_documents : DocumentStore cloud := {
  User_new body := on_mongo (mongo_new body);
  User_save d := on_mongo (mongo_save d);
  User_findOne := on_mongo mongo_findOne;
  User_find := on_mongo mongo_find;
  User_findById id := on_mongo (mongo_findById id);
  User_findByIdAndUpdate id update new :=
    on_mongo (mongo_findByIdAndUpdate id update new);
  User_deleteOne id := on_mongo (mongo_deleteOne id)
}.

End Model.

(** The object store. *)

Definition bucket_descriptor (name : string) : json :=
  JObj [("Name", JStr name)].

Definition object_descriptor (entry : string * s3_object) : json :=
  JObj [("Key", JStr entry.1);
        ("Size", JNum (Z.of_nat (String.length (object_body entry.2))))].

(** Modelled from the spec: [s3.listBuckets()], the store's
    [listBuckets() -> sequence<descriptor>|StoreError]. *)
Definition model_listBuckets (st : s3_state)
  : settled list_buckets_output * s3_state :=
  match s3_down st with
  | Some e => (Rejected e, st)
  | None =>
      (Fulfilled (ListBucketsOutput
                    (bucket_descriptor <$> (map_to_list (buckets st)).*1)), st)
  end.

(** Modelled from the spec: [s3.listObjectsV2({ Bucket })], the store's
    [listObjects(bucket) -> sequence<descriptor>|StoreError]; a missing
    bucket is a store error. *)
Definition model_listObjectsV2 (bucket : string) (st : s3_state)
  : settled list_objects_output * s3_state :=
  match s3_down st with
  | Some e => (Rejected e, st)
  | None =>
      match buckets st !! bucket with
      | None => (Rejected NoSuchBucket, st)
      | Some objs =>
          (Fulfilled (ListObjectsOutput (object_descriptor <$> map_to_list objs)),
           st)
      end
  end.

(** Modelled from the spec: [s3.upload({ Bucket, Key, Body, ContentType })],
    the store's [putObject(bucket, key, bytes, contentType) ->
    metadata|StoreError]; a key that is taken is overwritten. *)
Definition model_upload (p : upload_params) (st : s3_state)
  : settled json * s3_state :=
  match s3_down st with
  | Some e => (Rejected e, st)
  | None =>
      match buckets st !! Bucket p with
      | None => (Rejected NoSuchBucket, st)
      | Some objs =>
          (Fulfilled (JObj [("Bucket", JStr (Bucket p)); ("Key", JStr (Key p))]),
           S3State (<[Bucket p :=
                       <[Key p := S3Object (Body p) (ContentType p)]> objs]>
                      (buckets st))
                   (s3_down st))
      end
  end.

(** Modelled from the spec: [s3.deleteObject({ Bucket, Key })], the store's
    [deleteObject(bucket, key) -> ack|StoreError]; it does not tell whether
    the key was there. *)
Definition model_deleteObject (bucket key : string) (st : s3_state)
  : settled unit * s3_state :=
  match s3_down st with
  | Some e => (Rejected e, st)
  | None =>
      match buckets st !! bucket with
      | None => (Rejected NoSuchBucket, st)
      | Some objs =>
          (Fulfilled tt,
           S3State (<[bucket := delete key objs]> (buckets st)) (s3_down st))
      end
  end.

Definition on_s3 {A : Type} (op : s3_state -> A * s3_state) (c : cloud)
  : A * cloud :=
  let '(a, s') := op (s3 c) in (a, Cloud (mongo c) s').

#[export] Instance cloud_objects : ObjectStore cloud := {
  s3_listBuckets := on_s3 model_listBuckets;
  s3_listObjectsV2 bucket := on_s3 (model_listObjectsV2 bucket);
  s3_upload p := on_s3 (model_upload p);
  s3_deleteObject bucket key := on_s3 (model_deleteObject bucket key)
}.

(** One request served against the model: how the handler returned, the
    trace, and the stores afterwards. *)
Definition serve (drv : driver) (r : route) (req : request) (c : cloud)
  : settled unit * world cloud :=
  run (@handler cloud (cloud_documents drv) cloud_objects r req) c.

Definition served (drv : driver) (r : route) (req : request) (c : cloud)
  : list response :=
  responses (trace (serve drv r req c).2).

Definition after (drv : driver) (r : route) (req : request) (c : cloud) : cloud :=
  stores (serve drv r req c).2.

(** ** A driver and a few states to run the model on *)

Definition is_hex (a : Ascii.ascii) : bool :=
  let n := Ascii.nat_of_ascii a in
  ((48 <=? n) && (n <=? 57) || (97 <=? n) && (n <=? 102)
   || (65 <=? n) && (n <=? 70))%nat.

(** Twenty-four hexadecimal characters. *)
Definition hex24 (s : string) : bool :=
  (String.length s =? 24)%nat && forallb is_hex (String.list_ascii_of_string s).

Definition hex_digit (n : nat) : Ascii.ascii :=
  Ascii.ascii_of_nat (if (n <? 10)%nat then 48 + n else 87 + n)%nat.

Fixpoint hex_padded (width n : nat) : string :=
  match width with
  | O => ""
  | Datatypes.S w =>
      hex_padded w (n / 16)%nat +:+ String (hex_digit (n mod 16)%nat) ""
  end.

(** Strings are kept as they are and nothing else casts; identifiers are
    counters printed on twenty-four hexadecimal digits. *)
Definition hex_driver : driver := {|
  castString v := match v with JStr s => Some s | _ => None end;
  isValidObjectId := hex24;
  newObjectId := hex_padded 24
|}.

Definition unreachable : js_error :=
  JsError "MongoNetworkError" "connect ECONNREFUSED 127.0.0.1:27017".

Definition access_denied : js_error := JsError "AccessDenied" "Access Denied".

Definition ana_id : string := "000000000000000000000000".

Definition ana : gmap string string :=
  {[ "nome" := "Ana"; "email" := "ana@x.com" ]}.

Definition empty_cloud : cloud :=
  Cloud (MongoState ∅ 0 None) (S3State ∅ None).

(** One user, and a bucket [my-bucket] with nothing in it. *)
Definition small_cloud : cloud :=
  Cloud (MongoState {[ ana_id := ana ]} 1 None)
        (S3State {[ "my-bucket" := ∅ ]} None).

(** The same, with the database unreachable. *)
Definition offline_cloud : cloud :=
  Cloud (MongoState {[ ana_id := ana ]} 1 (Some unreachable))
        (S3State {[ "my-bucket" := ∅ ]} None).

(** The same, with the object store refusing every call. *)
Definition locked_cloud : cloud :=
  Cloud (MongoState {[ ana_id := ana ]} 1 None)
        (S3State {[ "my-bucket" := ∅ ]} (Some access_denied)).

Definition a_request (m p : string) (ps : list (string * string)) (b : json)
  (f : option uploaded_file) : request :=
  Request m p (list_to_map ps) b f.

Definition probe_request : request :=
  a_request "GET" "/mongodb/testar-conexao" [] (JObj []) None.

Definition user_request (m : string) (id : string) (b : json) : request :=
  a_request m ("/usuarios/" +:+ id) [("id", id)] b None.

Definition create_request (b : json) : request :=
  a_request "POST" "/usuarios" [] b None.

Definition bucket_request (bucket : string) : request :=
  a_request "GET" ("/buckets/" +:+ bucket) [("bucketName", bucket)] (JObj []) None.

Definition upload_request (bucket : string) (f : option uploaded_file) : request :=
  a_request "POST" ("/buckets/" +:+ bucket +:+ "/upload")
            [("bucketName", bucket)] (JObj []) f.

Definition delete_file_request (bucket key : string) : request :=
  a_request "DELETE" ("/buckets/" +:+ bucket +:+ "/file/" +:+ key)
            [("bucketName", bucket); ("fileName", key)] (JObj []) None.

Definition a_txt : uploaded_file := UploadedFile "a.txt" "hello" "text/plain".

(** ** The answers that are not [catch] bodies, by name *)

Definition user_not_found : response :=
  Response 404 (Json (JObj [("error", JStr "Usuário não encontrado.")])).

Definition user_removed : response :=
  Response 200 (Json (JObj [("message", JStr "Usuário removido com sucesso.")])).

Definition file_removed : response :=
  Response 200 (Json (JObj [("message", JStr "Arquivo removido.")])).

(** ** Reading a trace *)

(** The calls that go to the mongoose model; the others go to [s3]. *)
Definition on_document_store (c : call) : bool :=
  match c with
  | Call_findOne | Call_save _ | Call_find | Call_findById _
  | Call_findByIdAndUpdate _ _ _ | Call_deleteOne _ => true
  | Call_listBuckets | Call_listObjectsV2 _ | Call_upload _
  | Call_deleteObject _ _ => false
  end.

(** The routes declared under [// Testar conexão] and [// CRUD Usuários];
    the others are the ones declared after [// AWS S3 configuração]. *)
Definition user_route (r : route) : bool :=
  match r with
  | Testar_conexao | Post_usuarios | Get_usuarios | Get_usuarios_id
  | Put_usuarios_id | Delete_usuarios_id => true
  | Get_buckets | Get_buckets_bucketName | Post_buckets_upload
  | Delete_buckets_file => false
  end.

Definition is_logging (ev : event) : bool :=
  match ev with
  | Logged _ | Console _ _ => true
  | Awaited _ _ | Sent _ => false
  end.

(** Some lines of logging, then one response, then nothing. *)
Fixpoint logs_then_response (t : list event) : bool :=
  match t with
  | [] => false
  | ev :: rest =>
      match ev, rest with
      | Sent _, [] => true
      | _, _ => is_logging ev && logs_then_response rest
      end
  end.

(** One awaited call, then logging, then the response. *)
Definition call_logs_response (t : list event) : bool :=
  match t with
  | Awaited _ _ :: rest => logs_then_response rest
  | _ => false
  end.

Definition rejected (t : list event) : bool :=
  existsb (fun ev => match ev with Awaited _ (Some _) => true | _ => false end) t.

Definition logged (t : list event) : list log_event :=
  omap (fun ev => match ev with Logged l => Some l | _ => None end) t.

Definition is_error (l : log_event) : bool :=
  match log_level l with error => true | info => false end.

Definition error_logged (t : list event) : bool := existsb is_error (logged t).

Definition answered_500 (t : list event) : bool :=
  existsb (fun resp => status resp =? 500) (responses t).

(** The status codes that occur in the handler of each route. *)
Definition statuses (r : route) : list Z :=
  match r with
  | Post_usuarios => [201; 500]
  | Get_usuarios_id | Put_usuarios_id | Delete_usuarios_id => [200; 404; 500]
  | Post_buckets_upload => [400; 200; 500]
  | Testar_conexao | Get_usuarios | Get_buckets | Get_buckets_bucketName
  | Delete_buckets_file => [200; 500]
  end.

(** The parts of [req] that the handler of each route reads, apart from
    what it hands to the logger: two requests that agree on them are the
    same request to the handler. *)
Definition same_inputs (r : route) (req req' : request) : Prop :=
  match r with
  | Testar_conexao | Get_usuarios | Get_buckets => True
  | Post_usuarios => body req = body req'
  | Get_usuarios_id | Delete_usuarios_id => param "id" req = param "id" req'
  | Put_usuarios_id =>
      param "id" req = param "id" req' /\ body req = body req'
  | Get_buckets_bucketName => param "bucketName" req = param "bucketName" req'
  | Post_buckets_upload =>
      param "bucketName" req = param "bucketName" req' /\ file req = file req'
  | Delete_buckets_file =>
      param "bucketName" req = param "bucketName" req'
      /\ param "fileName" req = param "fileName" req'
  end.

(** The three bodies of the connectivity probe. *)
Definition probe_bodies : list payload :=
  [Text "Conexão com MongoDB OK - Usuário encontrado.";
   Text "Conexão com MongoDB OK - Nenhum usuário encontrado.";
   Text "Erro na conexão com o MongoDB."].

(** ** Start-up

    [mongoose.connect(...).then(() => logInfo(...)).catch(err => ...)]:
    the promise of the connection is awaited outside any request, and both
    log lines are written without a request. *)

Definition promise {S A : Type} (op : S -> settled A * S) : M S A :=
  fun w =>
    let '(r, s') := op (stores w) in
    (r, World s' (statusCode w) (trace w)).

Definition mongoose_connect {S : Type} (connect : S -> settled unit * S)
  : M S unit :=
  (try
     (promise connect ;;
      emit (Logged (LogEvent info "MongoDB conectado" None None)))
   catch err =>
     (console_error "Erro na conexão MongoDB:" err ;;
      emit (Logged (LogEvent error "Erro ao conectar MongoDB" None (Some err)))))%handler.

(** ** More states and requests to run the model on *)

(** [small_cloud] with one object in the bucket. *)
Definition stocked_cloud : cloud :=
  Cloud (MongoState {[ ana_id := ana ]} 1 None)
        (S3State {[ "my-bucket" := {[ "a.txt" := S3Object "hello" "text/plain" ]} ]}
                 None).

Definition a_txt_again : uploaded_file :=
  UploadedFile "a.txt" "hello, world" "text/plain".

Definition list_request (p : string) (b : json) : request :=
  a_request "GET" p [] b None.

(** * Properties *)

(** ** The model at work *)

Lemma every_route_is_bound (r : route) : r ∈ routes.*2.
Proof.
  destruct r; cbn;
    repeat first [apply list_elem_of_here | apply list_elem_of_further].
Qed.

Example hex_padded_255 : hex_padded 24 255 = "0000000000000000000000ff".
Proof. reflexivity. Qed.

Example ana_id_is_well_formed :
  hex24 ana_id = true /\ hex24 "42" = false /\ hex24 "zzzzzzzzzzzzzzzzzzzzzzzz" = false.
Proof. repeat split. Qed.

Example probe_on_empty_collection :
  served hex_driver Testar_conexao probe_request empty_cloud =
    [Response 200 (Text "Conexão com MongoDB OK - Nenhum usuário encontrado.")].
Proof. vm_compute. reflexivity. Qed.

(** Create, read, delete, read again. *)
Example user_lifecycle :
  let body := JObj [("nome", JStr "Ana"); ("email", JStr "ana@x.com")] in
  let record := JObj [("_id", JStr ana_id); ("nome", JStr "Ana");
                      ("email", JStr "ana@x.com")] in
  let c1 := after hex_driver Post_usuarios (create_request body) empty_cloud in
  let c2 := after hex_driver Delete_usuarios_id
              (user_request "DELETE" ana_id (JObj [])) c1 in
  served hex_driver Post_usuarios (create_request body) empty_cloud =
    [Response 201 (Json record)]
  /\ served hex_driver Get_usuarios_id (user_request "GET" ana_id (JObj [])) c1 =
       [Response 200 (Json record)]
  /\ served hex_driver Delete_usuarios_id
       (user_request "DELETE" ana_id (JObj [])) c1 = [user_removed]
  /\ served hex_driver Get_usuarios_id (user_request "GET" ana_id (JObj [])) c2 =
       [user_not_found].
Proof. vm_compute. repeat split. Qed.

(** Upload, list, delete, delete again. *)
Example object_lifecycle :
  let up := upload_request "my-bucket" (Some a_txt) in
  let del := delete_file_request "my-bucket" "a.txt" in
  let c1 := after hex_driver Post_buckets_upload up small_cloud in
  let c2 := after hex_driver Delete_buckets_file del c1 in
  served hex_driver Get_buckets_bucketName (bucket_request "my-bucket") c1 =
    [Response 200 (Json (JArr [JObj [("Key", JStr "a.txt"); ("Size", JNum 5)]]))]
  /\ served hex_driver Delete_buckets_file del c1 = [file_removed]
  /\ served hex_driver Delete_buckets_file del c2 = [file_removed]
  /\ served hex_driver Get_buckets_bucketName (bucket_request "my-bucket") c2 =
       [Response 200 (Json (JArr []))].
Proof. vm_compute. repeat split. Qed.

(** A refused upload: the call, the log line, the 500. *)
Example refused_upload :
  trace (serve hex_driver Post_buckets_upload
           (upload_request "my-bucket" (Some a_txt)) locked_cloud).2 =
    [Awaited (Call_upload (UploadParams "my-bucket" "a.txt" "hello" "text/plain"))
             (Some access_denied);
     Logged (LogEvent error "Erro no upload"
               (Some ("POST", "/buckets/my-bucket/upload")) (Some access_denied));
     Sent (Response 500 (Json (JObj [("error", JStr "Erro ao enviar arquivo.")])))].
Proof. vm_compute. reflexivity. Qed.

(** A missing bucket is a store failure like any other. *)
Example missing_bucket_is_500 :
  served hex_driver Get_buckets_bucketName (bucket_request "nope") small_cloud =
    [Response 500 (Json (JObj [("error", JStr "Erro ao listar objetos.")]))].
Proof. vm_compute. reflexivity. Qed.

(** ** Proof steps shared by the handler lemmas *)

Ltac unfold_handler :=
  unfold trace_of, handler, run,
    testar_conexao, post_usuarios, get_usuarios, get_usuarios_id,
    put_usuarios_id, delete_usuarios_id, get_buckets,
    get_buckets_bucketName, post_buckets_upload, delete_buckets_file,
    try_catch, bind, await, local, logInfo, logError, console_error,
    res_status, res_json, res_send, emit in *;
  cbn [stores statusCode trace fst snd app] in *.

(** Case analysis on the results of the collaborator operations that the
    goal is stuck on. *)
Ltac settle :=
  repeat match goal with
    | |- context [let '(_, _) := ?op in _] =>
        lazymatch op with
        | context [match _ with _ => _ end] => fail
        | _ => idtac
        end;
        let r := fresh "r" in let s := fresh "s" in
        destruct op as [r s]; try destruct r;
        cbn [stores statusCode trace fst snd app rejection] in *
    | |- context [match ?x with Some _ => _ | None => _ end] =>
        is_var x; destruct x;
        cbn [stores statusCode trace fst snd app rejection] in *
    | |- context [if ?b then _ else _] =>
        destruct b eqn:?;
        cbn [stores statusCode trace fst snd app rejection] in *
    end.

Section HandlerFacts.
Context {S : Type} `{!DocumentStore S} `{!ObjectStore S}.

(** Every handler returns normally: no exception leaves a [catch]. *)
Lemma handler_returns (r : route) (req : request) (s : S) :
  (run (handler r req) s).1 = Fulfilled tt.
Proof.
  destruct r; unfold_handler; try destruct (file req);
    cbn [stores statusCode trace fst snd app]; settle; reflexivity.
Qed.

(** A rejected call is the first event, and the [catch] block follows. *)
Lemma rejected_trace (r : route) (req : request) (s : S)
  (c : call) (e : js_error) :
  In (Awaited c (Some e)) (trace_of r req s) ->
  trace_of r req s =
    Awaited c (Some e) :: catch_logging r req e
      ++ [Sent (Response 500 (catch_body r))].
Proof.
  destruct r; unfold_handler; try destruct (file req);
    cbn [stores statusCode trace fst snd app]; settle;
    cbn; intros Hin; intuition (try discriminate);
    repeat match goal with
      | H : Awaited _ _ = Awaited _ _ |- _ => injection H as <- <-
      end; reflexivity.
Qed.

(** What each handler answers, by how its call settled. *)

Lemma get_usuarios_id_answer (req : request) (s : S) :
  responses (trace_of Get_usuarios_id req s) =
    [match (User_findById (param "id" req) s).1 with
     | Fulfilled (Some u) => Response 200 (Json (user_toJSON u))
     | Fulfilled None => user_not_found
     | Rejected _ => Response 500 (catch_body Get_usuarios_id)
     end].
Proof.
  unfold_handler.
  by destruct (User_findById (param "id" req) s) as [[[u|]|e] s'].
Qed.

Lemma put_usuarios_id_answer (req : request) (s : S) :
  responses (trace_of Put_usuarios_id req s) =
    [match (User_findByIdAndUpdate (param "id" req) (body req) true s).1 with
     | Fulfilled (Some u) => Response 200 (Json (user_toJSON u))
     | Fulfilled None => user_not_found
     | Rejected _ => Response 500 (catch_body Put_usuarios_id)
     end].
Proof.
  unfold_handler.
  by destruct (User_findByIdAndUpdate (param "id" req) (body req) true s)
    as [[[u|]|e] s'].
Qed.

Lemma delete_usuarios_id_answer (req : request) (s : S) :
  responses (trace_of Delete_usuarios_id req s) =
    [match (User_deleteOne (param "id" req) s).1 with
     | Fulfilled result =>
         if deletedCount result =? 0 then user_not_found else user_removed
     | Rejected _ => Response 500 (catch_body Delete_usuarios_id)
     end].
Proof.
  unfold_handler.
  destruct (User_deleteOne (param "id" req) s) as [[result|e] s'];
    [|reflexivity].
  cbn [stores statusCode trace fst snd app]. by destruct (_ =? _).
Qed.

Lemma get_buckets_bucketName_answer (req : request) (s : S) :
  responses (trace_of Get_buckets_bucketName req s) =
    [match (s3_listObjectsV2 (param "bucketName" req) s).1 with
     | Fulfilled data => Response 200 (Json (JArr (Contents data)))
     | Rejected _ => Response 500 (catch_body Get_buckets_bucketName)
     end].
Proof.
  unfold_handler.
  by destruct (s3_listObjectsV2 (param "bucketName" req) s) as [[data|e] s'].
Qed.

Lemma delete_buckets_file_answer (req : request) (s : S) :
  responses (trace_of Delete_buckets_file req s) =
    [match (s3_deleteObject (param "bucketName" req)
                            (param "fileName" req) s).1 with
     | Fulfilled _ => file_removed
     | Rejected _ => Response 500 (catch_body Delete_buckets_file)
     end].
Proof.
  unfold_handler.
  by destruct (s3_deleteObject (param "bucketName" req) (param "fileName" req) s)
    as [[[]|e] s'].
Qed.

Lemma post_usuarios_answer (req : request) (s : S) :
  responses (trace_of Post_usuarios req s) =
    [let '(user, s1) := User_new (body req) s in
     match (User_save user s1).1 with
     | Fulfilled _ => Response 201 (Json (user_toJSON (doc user)))
     | Rejected _ => Response 500 (catch_body Post_usuarios)
     end].
Proof.
  unfold_handler. destruct (User_new (body req) s) as [user s1].
  cbn [stores statusCode trace fst snd app].
  by destruct (User_save user s1) as [[[]|e] s2].
Qed.

End HandlerFacts.

(** ** Store failures (C1) *)

(** C1, as amended.  On every route, for every request and every
    implementation of the collaborators: when the awaited call rejects with
    [e], the trace is that call, then the [logError] line with the request's
    method and path and with [e] as detail (after a console line, on the
    probe), then one response with status 500 whose body is a constant of
    the route and so holds nothing of [e].  That body is a JSON object on
    every route but the connectivity probe, where it is plain text. *)
Theorem store_failure_logged_then_500
  {S : Type} `{!DocumentStore S} `{!ObjectStore S}
  (r : route) (req : request) (s : S) (c : call) (e : js_error) :
  In (Awaited c (Some e)) (trace_of r req s) ->
  trace_of r req s =
    Awaited c (Some e) :: catch_logging r req e
      ++ [Sent (Response 500 (catch_body r))]
  /\ last (catch_logging r req e) =
       Some (Logged (LogEvent error (catch_log r) (Some (context_of req)) (Some e)))
  /\ responses (trace_of r req s) = [Response 500 (catch_body r)]
  /\ (is_json (catch_body r) = true <-> r <> Testar_conexao).
Proof.
  intros Hin. pose proof (rejected_trace r req s c e Hin) as Ht.
  split; [exact Ht|]. split; [by destruct r|].
  split; [rewrite Ht; by destruct r|].
  destruct r; cbn; split; congruence.
Qed.

Lemma store_failure_logged_then_500_witness :
  let req := user_request "GET" ana_id (JObj []) in
  let t := trace (serve hex_driver Get_usuarios_id req offline_cloud).2 in
  In (Awaited (Call_findById ana_id) (Some unreachable)) t
  /\ t = [Awaited (Call_findById ana_id) (Some unreachable);
          Logged (LogEvent error "Erro ao buscar usuário"
                    (Some ("GET", "/usuarios/000000000000000000000000"))
                    (Some unreachable));
          Sent (Response 500 (Json (JObj [("error", JStr "Erro ao buscar usuário.")])))].
Proof.
  assert (Hin : In (Awaited (Call_findById ana_id) (Some unreachable))
                   (trace (serve hex_driver Get_usuarios_id
                             (user_request "GET" ana_id (JObj []))
                             offline_cloud).2))
    by (vm_compute; left; reflexivity).
  split; [exact Hin|].
  exact (proj1 (@store_failure_logged_then_500 cloud (cloud_documents hex_driver)
                  cloud_objects Get_usuarios_id
                  (user_request "GET" ana_id (JObj [])) offline_cloud
                  (Call_findById ana_id) unreachable Hin)).
Defined.

(** C1 as stated fails on the connectivity probe: with the database
    unreachable its call rejects, and the 500 it answers with carries a
    plain string, not a JSON value. *)
Lemma probe_failure_body_is_text :
  In (Awaited Call_findOne (Some unreachable))
     (trace (serve hex_driver Testar_conexao probe_request offline_cloud).2)
  /\ served hex_driver Testar_conexao probe_request offline_cloud =
       [Response 500 (Text "Erro na conexão com o MongoDB.")]
  /\ may_parse_as_json "Erro na conexão com o MongoDB." = false
  /\ ~ exists v : json,
         served hex_driver Testar_conexao probe_request offline_cloud =
           [Response 500 (Json v)].
Proof.
  split; [|split; [|split]].
  - vm_compute. left. reflexivity.
  - vm_compute. reflexivity.
  - reflexivity.
  - intros [v Hv]. vm_compute in Hv. discriminate Hv.
Qed.

(** ** One response per request (C2) *)

(** C2.  On every route, for every request, every state and every
    implementation of the collaborators (whatever the awaited promise
    settles to), the handler returns normally and has sent exactly one
    response. *)
Theorem exactly_one_response
  {S : Type} `{!DocumentStore S} `{!ObjectStore S}
  (r : route) (req : request) (s : S) :
  (run (handler r req) s).1 = Fulfilled tt
  /\ length (responses (trace_of r req s)) = 1%nat.
Proof.
  split; [apply handler_returns|].
  destruct r; unfold_handler; try destruct (file req);
    cbn [stores statusCode trace fst snd app]; settle; reflexivity.
Qed.

(** ** Bodies and JSON (C9) *)

(** C9, as amended.  Every response of every route other than the
    connectivity probe is sent with [res.json]; every response of the
    probe, the two 200 ones and the 500 one, is a plain string sent with
    [res.send]. *)
Theorem bodies_are_json_except_probe
  {S : Type} `{!DocumentStore S} `{!ObjectStore S}
  (r : route) (req : request) (s : S) :
  Forall (fun resp =>
            is_json (content resp) =
              match r with Testar_conexao => false | _ => true end)
         (responses (trace_of r req s)).
Proof.
  destruct r; unfold_handler; try destruct (file req);
    cbn [stores statusCode trace fst snd app]; settle;
    repeat constructor.
Qed.

(** C9 as stated fails on the probe: with a user in the collection it
    answers 200 with a body that is not JSON. *)
Lemma probe_success_body_is_text :
  served hex_driver Testar_conexao probe_request small_cloud =
    [Response 200 (Text "Conexão com MongoDB OK - Usuário encontrado.")]
  /\ may_parse_as_json "Conexão com MongoDB OK - Usuário encontrado." = false
  /\ ~ Forall (fun resp => is_json (content resp) = true)
         (served hex_driver Testar_conexao probe_request small_cloud).
Proof.
  split; [vm_compute; reflexivity|]. split; [reflexivity|].
  intros Hall. vm_compute in Hall.
  inversion Hall as [|? ? Hhead _]. discriminate Hhead.
Qed.

(** ** Proof steps for requests served against the model *)

Ltac unfold_model :=
  unfold served, after, serve in *; unfold_handler;
  cbn [User_new User_save User_findOne User_find User_findById
       User_findByIdAndUpdate User_deleteOne cloud_documents
       s3_listBuckets s3_listObjectsV2 s3_upload s3_deleteObject
       cloud_objects] in *;
  unfold on_mongo, on_s3, mongo_new, mongo_save, mongo_findOne, mongo_find,
    mongo_findById, mongo_findByIdAndUpdate, mongo_deleteOne,
    model_listBuckets, model_listObjectsV2, model_upload,
    model_deleteObject in *;
  cbn [mongo s3 users constructed mongo_down buckets s3_down] in *.

(** ** Listing an empty bucket (C3) *)

(** C3.  Whatever the object store is, the list-objects handler answers a
    fulfilled listing with status 200 and the [Contents] it received.  In
    the model, when the object store is up and the bucket named in the path
    exists and holds no object, the handler awaits the listing, logs
    nothing, and answers 200 with the empty array. *)
Theorem empty_bucket_lists_empty :
  (forall (S : Type) (DS : DocumentStore S) (OS : ObjectStore S)
          (req : request) (s s' : S) (data : list_objects_output),
     s3_listObjectsV2 (param "bucketName" req) s = (Fulfilled data, s') ->
     Contents data = [] ->
     responses (trace_of Get_buckets_bucketName req s) =
       [Response 200 (Json (JArr []))])
  /\ (forall (drv : driver) (req : request) (c : cloud),
        s3_down (s3 c) = None ->
        buckets (s3 c) !! param "bucketName" req = Some ∅ ->
        trace (serve drv Get_buckets_bucketName req c).2 =
          [Awaited (Call_listObjectsV2 (param "bucketName" req)) None;
           Sent (Response 200 (Json (JArr [])))]
        /\ served drv Get_buckets_bucketName req c =
             [Response 200 (Json (JArr []))]).
Proof.
  split.
  - intros S DS OS req s s' data Hcall Hempty.
    rewrite get_buckets_bucketName_answer, Hcall. cbn. by rewrite Hempty.
  - intros drv req c Hup Hbucket.
    unfold_model. rewrite Hup, Hbucket, map_to_list_empty. done.
Qed.

Lemma empty_bucket_lists_empty_witness :
  served hex_driver Get_buckets_bucketName (bucket_request "my-bucket")
         small_cloud
  = [Response 200 (Json (JArr []))].
Proof.
  apply (proj2 empty_bucket_lists_empty hex_driver
           (bucket_request "my-bucket") small_cloud); reflexivity.
Defined.

(** ** Upload (C4) *)

(** C4.  For every request, state and object store: without [req.file] the
    upload handler does nothing but answer 400 with the "no file sent"
    body, so it awaits no call and leaves the stores as they were; with a
    file, it awaits one upload whose key is the file's original name, and
    when that is fulfilled with [data] it answers 200 with the confirmation
    message and [data]. *)
Theorem upload_contract
  {S : Type} `{!DocumentStore S} `{!ObjectStore S} (req : request) (s : S) :
  match file req with
  | None =>
      trace_of Post_buckets_upload req s =
        [Sent (Response 400 (Json (JObj [("error", JStr "Nenhum arquivo enviado.")])))]
      /\ calls (trace_of Post_buckets_upload req s) = []
      /\ stores (run (handler Post_buckets_upload req) s).2 = s
  | Some f =>
      let p := {| Bucket := param "bucketName" req;
                  Key := originalname f;
                  Body := buffer f;
                  ContentType := mimetype f |} in
      calls (trace_of Post_buckets_upload req s) = [Call_upload p]
      /\ forall (data : json) (s' : S),
           s3_upload p s = (Fulfilled data, s') ->
           trace_of Post_buckets_upload req s =
             [Awaited (Call_upload p) None;
              Sent (Response 200
                      (Json (JObj [("message", JStr "Upload concluído.");
                                   ("data", data)])))]
  end.
Proof.
  unfold_handler. destruct (file req) as [f|];
    cbn [stores statusCode trace fst snd app].
  - split.
    + settle; reflexivity.
    + intros data s' Hcall. rewrite Hcall. reflexivity.
  - done.
Qed.

Lemma upload_contract_witness :
  trace (serve hex_driver Post_buckets_upload
           (upload_request "my-bucket" (Some a_txt)) small_cloud).2 =
    [Awaited (Call_upload (UploadParams "my-bucket" "a.txt" "hello" "text/plain"))
             None;
     Sent (Response 200
             (Json (JObj [("message", JStr "Upload concluído.");
                          ("data", JObj [("Bucket", JStr "my-bucket");
                                         ("Key", JStr "a.txt")])])))].
Proof.
  refine (proj2 (@upload_contract cloud (cloud_documents hex_driver)
                   cloud_objects (upload_request "my-bucket" (Some a_txt))
                   small_cloud) _ (after hex_driver Post_buckets_upload
                   (upload_request "my-bucket" (Some a_txt)) small_cloud) _).
  vm_compute. reflexivity.
Defined.

(** ** Deleting a user (C5) *)

(** C5.  Whatever the document store is, when the delete is fulfilled
    the handler answers 404 if [deletedCount] is zero and 200 with the
    confirmation message otherwise.  In the model, with the database up
    and a well-formed id in the path: no record with that id gives zero
    and so 404, a record with that id is deleted and gives 200; either way
    the id is absent afterwards, so the same request served again answers
    404. *)
Theorem delete_user_contract :
  (forall (S : Type) (DS : DocumentStore S) (OS : ObjectStore S)
          (req : request) (s s' : S) (n : Z),
     User_deleteOne (param "id" req) s = (Fulfilled (DeleteResult n), s') ->
     responses (trace_of Delete_usuarios_id req s) =
       [if n =? 0 then user_not_found else user_removed])
  /\ (forall (drv : driver) (req : request) (c : cloud),
        isValidObjectId drv (param "id" req) = true ->
        mongo_down (mongo c) = None ->
        served drv Delete_usuarios_id req c =
          [match users (mongo c) !! param "id" req with
           | None => user_not_found
           | Some _ => user_removed
           end]
        /\ users (mongo (after drv Delete_usuarios_id req c))
             !! param "id" req = None
        /\ served drv Delete_usuarios_id req
             (after drv Delete_usuarios_id req c) = [user_not_found]).
Proof.
  split.
  - intros S DS OS req s s' n Hcall.
    by rewrite delete_usuarios_id_answer, Hcall.
  - intros drv req c Hvalid Hup.
    assert (Hgone :
      users (mongo (after drv Delete_usuarios_id req c))
        !! param "id" req = None).
    { unfold_model. rewrite Hvalid, Hup. cbn [negb].
      destruct (users (mongo c) !! param "id" req) eqn:Hid; cbn.
      - apply lookup_delete_eq.
      - exact Hid. }
    assert (Hup' :
      mongo_down (mongo (after drv Delete_usuarios_id req c)) = None).
    { unfold_model. rewrite Hvalid, Hup. cbn [negb].
      by destruct (users (mongo c) !! param "id" req). }
    split; [|split; [exact Hgone|]].
    + unfold_model. rewrite Hvalid, Hup. cbn [negb].
      by destruct (users (mongo c) !! param "id" req).
    + revert Hgone Hup'. generalize (after drv Delete_usuarios_id req c).
      intros c' Hgone Hup'. unfold_model. rewrite Hvalid, Hup', Hgone. done.
Qed.

Lemma delete_user_contract_witness :
  let req := user_request "DELETE" ana_id (JObj []) in
  served hex_driver Delete_usuarios_id req small_cloud = [user_removed]
  /\ served hex_driver Delete_usuarios_id req
       (after hex_driver Delete_usuarios_id req small_cloud) = [user_not_found].
Proof.
  pose proof (proj2 delete_user_contract hex_driver
                (user_request "DELETE" ana_id (JObj [])) small_cloud
                eq_refl eq_refl) as [Hfirst [_ Hsecond]].
  split; [exact Hfirst | exact Hsecond].
Defined.

(** ** Deleting an object (C6) *)

(** C6.  For every request, state and object store, the delete-object
    handler answers 200 with the confirmation when the awaited call is
    fulfilled and 500 when it is rejected, so never 404: the handler does
    not look at whether the key was there.  Hence when the call is
    fulfilled a first time and again on the stores the first request left,
    both requests are answered 200. *)
Theorem delete_object_contract
  {S : Type} `{!DocumentStore S} `{!ObjectStore S} (req : request) (s : S) :
  let bucket := param "bucketName" req in
  let key := param "fileName" req in
  let s1 := stores (run (handler Delete_buckets_file req) s).2 in
  responses (trace_of Delete_buckets_file req s) =
    [match (s3_deleteObject bucket key s).1 with
     | Fulfilled _ => file_removed
     | Rejected _ => Response 500 (catch_body Delete_buckets_file)
     end]
  /\ Forall (fun resp => status resp <> 404)
            (responses (trace_of Delete_buckets_file req s))
  /\ ((s3_deleteObject bucket key s).1 = Fulfilled tt ->
      (s3_deleteObject bucket key s1).1 = Fulfilled tt ->
      responses (trace_of Delete_buckets_file req s) = [file_removed]
      /\ responses (trace_of Delete_buckets_file req s1) = [file_removed]).
Proof.
  cbn zeta. split; [apply delete_buckets_file_answer|]. split.
  - rewrite delete_buckets_file_answer.
    destruct (s3_deleteObject _ _ s).1; repeat constructor; cbn; lia.
  - intros Hfirst Hsecond.
    rewrite !delete_buckets_file_answer, Hfirst, Hsecond. done.
Qed.

Lemma delete_object_contract_witness :
  let req := delete_file_request "my-bucket" "a.txt" in
  served hex_driver Delete_buckets_file req small_cloud = [file_removed]
  /\ served hex_driver Delete_buckets_file req
       (after hex_driver Delete_buckets_file req small_cloud) = [file_removed].
Proof.
  exact (proj2 (proj2 (@delete_object_contract cloud (cloud_documents hex_driver)
                         cloud_objects
                         (delete_file_request "my-bucket" "a.txt") small_cloud))
           eq_refl eq_refl).
Defined.

(** ** Casting a body against the schema *)

Section CastFields.
Variable drv : driver.

(** A path outside the schema is never read. *)
Lemma cast_fields_outside (schema : list (string * schema_type))
  (obj : json) (p : string) :
  p ∉ schema.*1 -> (cast_fields drv schema obj).1 !! p = None.
Proof.
  induction schema as [|[q ty] rest IH]; intros Hout; cbn.
  - apply lookup_empty.
  - rewrite fmap_cons, not_elem_of_cons in Hout. destruct Hout as [Hne Hrest].
    specialize (IH Hrest).
    destruct (cast_fields drv rest obj) as [f bad]; cbn in *.
    destruct (json_get q obj) as [v|]; [|exact IH].
    destruct (cast drv ty v); cbn; [|exact IH].
    rewrite lookup_insert_ne by congruence. exact IH.
Qed.

(** A path the body does not supply is not set. *)
Lemma cast_fields_unsupplied (schema : list (string * schema_type))
  (obj : json) (p : string) :
  json_get p obj = None -> (cast_fields drv schema obj).1 !! p = None.
Proof.
  intros Hnone. induction schema as [|[q ty] rest IH]; cbn.
  - apply lookup_empty.
  - destruct (cast_fields drv rest obj) as [f bad]; cbn in *.
    destruct (json_get q obj) as [v|] eqn:Hq; [|exact IH].
    destruct (cast drv ty v); cbn; [|exact IH].
    rewrite lookup_insert_ne by congruence. exact IH.
Qed.

(** A path of the schema that the body supplies is set to the cast of
    the supplied value. *)
Lemma cast_fields_supplied (schema : list (string * schema_type))
  (obj : json) (p : string) (ty : schema_type) (v : json) :
  NoDup schema.*1 ->
  (p, ty) ∈ schema ->
  json_get p obj = Some v ->
  (cast_fields drv schema obj).1 !! p = cast drv ty v.
Proof.
  induction schema as [|[q ty'] rest IH]; intros Hnodup Hin Hv.
  - by apply elem_of_nil in Hin.
  - rewrite fmap_cons in Hnodup. apply NoDup_cons in Hnodup as [Hq Hnodup].
    cbn. pose proof (cast_fields_outside rest obj q Hq) as Hout.
    destruct (cast_fields drv rest obj) as [f bad] eqn:Hrest; cbn in *.
    apply elem_of_cons in Hin as [Heq|Hin].
    + injection Heq as <- <-. rewrite Hv.
      destruct (cast drv ty v) eqn:Hcast; cbn.
      * apply lookup_insert_eq.
      * exact Hout.
    + assert (p <> q) as Hne.
      { intros ->. apply Hq. apply list_elem_of_fmap. by exists (q, ty). }
      specialize (IH Hnodup Hin Hv).
      destruct (json_get q obj) as [w|]; [|exact IH].
      destruct (cast drv ty' w); cbn; [|exact IH].
      rewrite lookup_insert_ne by congruence. exact IH.
Qed.

(** When no path failed, every supplied value of a schema path cast. *)
Lemma cast_fields_no_failure (schema : list (string * schema_type))
  (obj : json) (p : string) (ty : schema_type) (v : json) :
  (cast_fields drv schema obj).2 = [] ->
  (p, ty) ∈ schema ->
  json_get p obj = Some v ->
  is_Some (cast drv ty v).
Proof.
  induction schema as [|[q ty'] rest IH]; intros Hbad Hin Hv.
  - by apply elem_of_nil in Hin.
  - cbn in Hbad.
    destruct (cast_fields drv rest obj) as [f bad]; cbn in *.
    apply elem_of_cons in Hin as [Heq|Hin].
    + injection Heq as <- <-. rewrite Hv in Hbad.
      destruct (cast drv ty v); [by eexists | discriminate Hbad].
    + destruct (json_get q obj) as [w|]; [|by apply IH].
      destruct (cast drv ty' w); [by apply IH | discriminate Hbad].
Qed.

Lemma UserSchema_NoDup : NoDup UserSchema.*1.
Proof. compute_done. Qed.

End CastFields.

(** ** Updating a user (C7) *)

(** C7.  Whatever the document store is, the update handler asks for the
    post-update record ([{ new: true }]) and answers 200 with the record it
    receives, or 404 when it receives none.  In the model, with the
    database up, a well-formed id in the path and a body whose supplied
    schema values all cast: when a record [old] has that id, the answer is
    200 with the record as it is after the update, which is stored under
    the same id in place of [old]; in it every schema path the body
    supplies holds the supplied value, and every path the body does not
    supply (or that is outside the schema) holds what [old] held.  When no
    record has that id the answer is 404 and the stores are as they
    were. *)
Theorem update_user_contract :
  (forall (S : Type) (DS : DocumentStore S) (OS : ObjectStore S)
          (req : request) (s s' : S) (found : option user),
     User_findByIdAndUpdate (param "id" req) (body req) true s =
       (Fulfilled found, s') ->
     responses (trace_of Put_usuarios_id req s) =
       [match found with
        | Some u => Response 200 (Json (user_toJSON u))
        | None => user_not_found
        end])
  /\ (forall (drv : driver) (req : request) (c : cloud),
        isValidObjectId drv (param "id" req) = true ->
        mongo_down (mongo c) = None ->
        (cast_fields drv UserSchema (body req)).2 = [] ->
        match users (mongo c) !! param "id" req with
        | Some old =>
            exists new : gmap string string,
              served drv Put_usuarios_id req c =
                [Response 200 (Json (user_toJSON (User (param "id" req) new)))]
              /\ users (mongo (after drv Put_usuarios_id req c)) =
                   <[param "id" req := new]> (users (mongo c))
              /\ (forall p ty v,
                    (p, ty) ∈ UserSchema -> json_get p (body req) = Some v ->
                    exists s, cast drv ty v = Some s /\ new !! p = Some s)
              /\ (forall p, json_get p (body req) = None -> new !! p = old !! p)
              /\ (forall p, p ∉ UserSchema.*1 -> new !! p = old !! p)
        | None =>
            served drv Put_usuarios_id req c = [user_not_found]
            /\ after drv Put_usuarios_id req c = c
        end).
Proof.
  split.
  { intros S DS OS req s s' found Hcall.
    rewrite put_usuarios_id_answer, Hcall. by destruct found. }
  intros drv req c Hvalid Hup Hcast.
  pose proof (cast_fields_supplied drv UserSchema (body req)) as Hsupplied.
  pose proof (cast_fields_no_failure drv UserSchema (body req)) as Hsome.
  pose proof (cast_fields_unsupplied drv UserSchema (body req)) as Hunsupplied.
  pose proof (cast_fields_outside drv UserSchema (body req)) as Houtside.
  destruct (cast_fields drv UserSchema (body req)) as [set bad] eqn:Hset.
  cbn [fst snd] in *. subst bad.
  destruct (users (mongo c) !! param "id" req) as [old|] eqn:Hid.
  - exists (set ∪ old). split; [|split; [|split; [|split]]].
    + unfold_model. rewrite Hvalid, Hset, Hup, Hid. reflexivity.
    + unfold_model. rewrite Hvalid, Hset, Hup, Hid. reflexivity.
    + intros p ty v Hin Hv.
      destruct (Hsome p ty v eq_refl Hin Hv) as [s Hs].
      exists s. split; [exact Hs|].
      apply lookup_union_Some_l.
      rewrite (Hsupplied p ty v UserSchema_NoDup Hin Hv). exact Hs.
    + intros p Hnone. apply lookup_union_r. by apply Hunsupplied.
    + intros p Hout. apply lookup_union_r. by apply Houtside.
  - split.
    + unfold_model. rewrite Hvalid, Hset, Hup, Hid. reflexivity.
    + unfold_model. rewrite Hvalid, Hset, Hup, Hid. by destruct c.
Qed.

Lemma update_user_contract_witness :
  let req := user_request "PUT" ana_id (JObj [("nome", JStr "Bia")]) in
  exists new : gmap string string,
    served hex_driver Put_usuarios_id req small_cloud =
      [Response 200 (Json (user_toJSON (User ana_id new)))]
    /\ new !! "nome" = Some "Bia"
    /\ new !! "email" = Some "ana@x.com".
Proof.
  destruct (proj2 update_user_contract hex_driver
              (user_request "PUT" ana_id (JObj [("nome", JStr "Bia")]))
              small_cloud eq_refl eq_refl eq_refl)
    as [new [Hsent [_ [Hset [Hkept _]]]]].
  exists new. split; [exact Hsent|]. split.
  - destruct (Hset "nome" SchemaString (JStr "Bia")) as [s [Hs ->]];
      [apply list_elem_of_here | reflexivity | symmetry; exact Hs].
  - rewrite (Hkept "email" eq_refl). reflexivity.
Defined.

(** ** Reading a user (C8) *)

(** C8.  Whatever the document store is, the get-by-id handler answers a
    rejected lookup with 500 and its generic body, a fulfilled lookup that
    found nothing with 404 and the not-found body, and one that found a
    record with 200 and the record.  In the model, an id that does not cast
    to a store identifier makes the lookup reject, so the answer is that
    500, whether the database is up or not; with the database up and a
    well-formed id the answer is the 404 when no record has the id and the
    200 with the record when one has. *)
Theorem get_user_contract :
  (forall (S : Type) (DS : DocumentStore S) (OS : ObjectStore S)
          (req : request) (s : S),
     responses (trace_of Get_usuarios_id req s) =
       [match (User_findById (param "id" req) s).1 with
        | Fulfilled (Some u) => Response 200 (Json (user_toJSON u))
        | Fulfilled None =>
            Response 404 (Json (JObj [("error", JStr "Usuário não encontrado.")]))
        | Rejected _ =>
            Response 500 (Json (JObj [("error", JStr "Erro ao buscar usuário.")]))
        end])
  /\ (forall (drv : driver) (req : request) (c : cloud),
        (isValidObjectId drv (param "id" req) = false ->
         served drv Get_usuarios_id req c =
           [Response 500 (Json (JObj [("error", JStr "Erro ao buscar usuário.")]))])
        /\ (isValidObjectId drv (param "id" req) = true ->
            mongo_down (mongo c) = None ->
            served drv Get_usuarios_id req c =
              [match users (mongo c) !! param "id" req with
               | None => user_not_found
               | Some f =>
                   Response 200 (Json (user_toJSON (User (param "id" req) f)))
               end])).
Proof.
  split.
  { intros S DS OS req s. apply get_usuarios_id_answer. }
  intros drv req c. split.
  - intros Hbad. unfold_model. rewrite Hbad. reflexivity.
  - intros Hvalid Hup. unfold_model. rewrite Hvalid, Hup. cbn [negb].
    by destruct (users (mongo c) !! param "id" req).
Qed.

Lemma get_user_contract_witness :
  served hex_driver Get_usuarios_id (user_request "GET" "42" (JObj []))
         small_cloud =
    [Response 500 (Json (JObj [("error", JStr "Erro ao buscar usuário.")]))]
  /\ served hex_driver Get_usuarios_id
       (user_request "GET" "0000000000000000000000ff" (JObj [])) small_cloud =
       [user_not_found]
  /\ served hex_driver Get_usuarios_id (user_request "GET" ana_id (JObj []))
       small_cloud =
       [Response 200
          (Json (JObj [("_id", JStr ana_id); ("nome", JStr "Ana");
                       ("email", JStr "ana@x.com")]))].
Proof.
  split; [|split].
  - apply (proj1 (proj2 get_user_contract hex_driver
                    (user_request "GET" "42" (JObj [])) small_cloud)).
    reflexivity.
  - apply (proj2 (proj2 get_user_contract hex_driver
                    (user_request "GET" "0000000000000000000000ff" (JObj []))
                    small_cloud)); reflexivity.
  - apply (proj2 (proj2 get_user_contract hex_driver
                    (user_request "GET" ana_id (JObj [])) small_cloud));
      reflexivity.
Defined.

(** ** Creating a user (C10) *)

(** C10.  For every body, state and document store, the create handler
    answers with status 201 or 500, never 400.  In the model, when the
    save is fulfilled: the document saved has the identifier assigned at
    construction and, as fields, the casts of the body's [nome] and
    [email] and nothing else; that record is what the collection then
    holds under the identifier; and the handler answers 201 with it, the
    identifier under [_id]. *)
Theorem create_user_contract :
  (forall (S : Type) (DS : DocumentStore S) (OS : ObjectStore S)
          (req : request) (s : S),
     Forall (fun resp =>
               status resp <> 400 /\ (status resp = 201 \/ status resp = 500))
            (responses (trace_of Post_usuarios req s)))
  /\ (forall (drv : driver) (req : request) (c : cloud) (d : document),
        In (Awaited (Call_save d) None)
           (trace (serve drv Post_usuarios req c).2) ->
        exists f : gmap string string,
          let id := newObjectId drv (constructed (mongo c)) in
          doc d = User id f
          /\ served drv Post_usuarios req c =
               [Response 201 (Json (user_toJSON (User id f)))]
          /\ json_get "_id" (user_toJSON (User id f)) = Some (JStr id)
          /\ users (mongo (after drv Post_usuarios req c)) =
               <[id := f]> (users (mongo c))
          /\ (forall p, p = "nome" \/ p = "email" ->
                f !! p = json_get p (body req) ≫= castString drv)
          /\ (forall p, p <> "nome" -> p <> "email" -> f !! p = None)).
Proof.
  split.
  - intros S DS OS req s. rewrite post_usuarios_answer.
    destruct (User_new (body req) s) as [user s1].
    destruct (User_save user s1).1; repeat constructor; cbn; lia.
  - intros drv req c d Hin.
    pose proof (cast_fields_supplied drv UserSchema (body req)) as Hsupplied.
    pose proof (cast_fields_unsupplied drv UserSchema (body req)) as Hunsupplied.
    pose proof (cast_fields_outside drv UserSchema (body req)) as Houtside.
    destruct (cast_fields drv UserSchema (body req)) as [f bad] eqn:Hf.
    cbn [fst] in *. exists f. revert Hin. unfold_model. rewrite Hf.
    destruct bad as [|b bad];
      cbn [validationError doc _id fields mongo s3 users constructed
           mongo_down stores statusCode trace fst snd];
      [|cbn; intros [Hin|[Hin|[Hin|[]]]]; discriminate Hin].
    destruct (mongo_down (mongo c)) as [e|];
      [cbn; intros [Hin|[Hin|[Hin|[]]]]; discriminate Hin|].
    destruct (users (mongo c) !! newObjectId drv (constructed (mongo c)));
      [cbn; intros [Hin|[Hin|[Hin|[]]]]; discriminate Hin|].
    cbn. intros [Hin|[Hin|[Hin|[]]]]; try discriminate Hin.
    injection Hin as <-.
    split; [reflexivity|]. split; [reflexivity|]. split; [reflexivity|].
    split; [reflexivity|]. split.
    + intros p Hp.
      destruct (json_get p (body req)) as [v|] eqn:Hv.
      * rewrite (Hsupplied p SchemaString v (UserSchema_NoDup)); [done| |done].
        destruct Hp as [-> | ->];
          [apply list_elem_of_here
          |apply list_elem_of_further, list_elem_of_here].
      * by apply Hunsupplied.
    + intros p Hnome Hemail. apply Houtside. cbn.
      rewrite !not_elem_of_cons. repeat split; [done|done|apply not_elem_of_nil].
Qed.

Lemma create_user_contract_witness :
  served hex_driver Post_usuarios
    (create_request (JObj [("nome", JStr "Ana"); ("email", JStr "ana@x.com");
                           ("admin", JBool true)]))
    empty_cloud
  = [Response 201
       (Json (JObj [("_id", JStr "000000000000000000000000");
                    ("nome", JStr "Ana"); ("email", JStr "ana@x.com")]))].
Proof.
  destruct (proj2 create_user_contract hex_driver
              (create_request (JObj [("nome", JStr "Ana");
                                     ("email", JStr "ana@x.com");
                                     ("admin", JBool true)]))
              empty_cloud
              (Document (User "000000000000000000000000" ana) None))
    as [f [Hdoc [Hsent _]]].
  - vm_compute. left. reflexivity.
  - injection Hdoc as <-. exact Hsent.
Defined.

(** * Further properties of the handlers *)

Ltac run_route r req :=
  destruct r; unfold_handler; try destruct (file req);
  cbn [stores statusCode trace fst snd app]; settle.

Section HandlerDiscipline.
Context {S : Type} `{!DocumentStore S} `{!ObjectStore S}.

(** X1.  The order of events.  The upload handler without a file answers and
    does nothing else.  In every other case the handler first awaits one
    call, then writes zero or more log lines, then sends the response, and
    the response is the last thing it does: no second call, nothing after
    the answer. *)
Theorem call_then_logs_then_response (r : route) (req : request) (s : S) :
  match r, file req with
  | Post_buckets_upload, None =>
      exists resp, trace_of r req s = [Sent resp]
  | _, _ => call_logs_response (trace_of r req s) = true
  end
  /\ length (calls (trace_of r req s)) =
       match r, file req with
       | Post_buckets_upload, None => 0%nat
       | _, _ => 1%nat
       end.
Proof.
  destruct r; unfold_handler; destruct (file req);
    cbn [stores statusCode trace fst snd app]; settle;
    (split; [first [reflexivity | by eexists] | reflexivity]).
Qed.

(** X2.  The two facades do not mix: a handler of the user routes calls only
    the mongoose model, a handler of the bucket routes calls only [s3]. *)
Theorem facades_do_not_mix (r : route) (req : request) (s : S) :
  Forall (fun c => on_document_store c = user_route r)
         (calls (trace_of r req s)).
Proof. run_route r req; repeat constructor. Qed.

(** X3.  The status codes of each route: every answer carries one of the codes
    of [statuses].  So no bucket route answers 404, only the upload
    answers 400, only the creation answers 201. *)
Theorem status_codes_by_route (r : route) (req : request) (s : S) :
  Forall (fun resp => In (status resp) (statuses r))
         (responses (trace_of r req s))
  /\ (user_route r = false ->
      Forall (fun resp => status resp <> 404) (responses (trace_of r req s)))
  /\ (r <> Post_buckets_upload ->
      Forall (fun resp => status resp <> 400) (responses (trace_of r req s)))
  /\ (r <> Post_usuarios ->
      Forall (fun resp => status resp <> 201) (responses (trace_of r req s))).
Proof.
  run_route r req;
    (split; [repeat constructor; cbn; tauto|]);
    (split; [intros Hr; try discriminate Hr; repeat constructor; cbn; lia|]);
    (split; intros Hr; try (by destruct Hr); repeat constructor; cbn; lia).
Qed.

(** X4.  Failure and its marks go together: a handler answers 500 exactly when
    its awaited call rejected, and it writes an error line to the logger
    exactly then. *)
Theorem status_500_iff_rejected (r : route) (req : request) (s : S) :
  answered_500 (trace_of r req s) = rejected (trace_of r req s)
  /\ error_logged (trace_of r req s) = rejected (trace_of r req s).
Proof. run_route r req; split; reflexivity. Qed.

(** X5.  What reaches the logger.  A request writes at most one line, and
    the line carries the method and the path of the request.  An error
    line carries the reason of the rejected call; an info line is written
    only by the probe and by the creation, only when the call was
    fulfilled, and carries no detail. *)
Theorem logging_discipline (r : route) (req : request) (s : S) :
  (length (logged (trace_of r req s)) <= 1)%nat
  /\ Forall (fun l =>
               log_context l = Some (method req, path req)
               /\ match log_level l with
                  | error =>
                      exists c e, log_detail l = Some e
                                  /\ In (Awaited c (Some e)) (trace_of r req s)
                  | info =>
                      log_detail l = None
                      /\ rejected (trace_of r req s) = false
                      /\ (r = Testar_conexao \/ r = Post_usuarios)
                  end)
            (logged (trace_of r req s)).
Proof.
  run_route r req; (split; [cbn; lia|]); cbn;
    repeat (apply List.Forall_cons); try exact (List.Forall_nil _);
    (split; [reflexivity|]); cbn;
    first [ do 2 eexists; split; [reflexivity | left; reflexivity]
          | split; [reflexivity|]; split; [reflexivity|];
            first [left; reflexivity | right; reflexivity] ].
Qed.

(** X6.  A handler reads of a request only what [same_inputs] names: two
    requests that agree on that get the same answer, through the same
    call, and leave the stores in the same state.  So the listings and the
    probe read nothing of the request, the body matters only to the
    creation and to the update, and the file only to the upload. *)
Theorem handler_reads_only_its_inputs
  (r : route) (req req' : request) (s : S) :
  same_inputs r req req' ->
  responses (trace_of r req s) = responses (trace_of r req' s)
  /\ calls (trace_of r req s) = calls (trace_of r req' s)
  /\ stores (run (handler r req) s).2 = stores (run (handler r req') s).2.
Proof.
  intros Hsame. destruct r; cbn [same_inputs] in Hsame;
    unfold_handler; destruct_and?;
    repeat match goal with
      | H : param _ req = param _ req' |- _ => rewrite <- H; clear H
      | H : body req = body req' |- _ => rewrite <- H; clear H
      | H : file req = file req' |- _ => rewrite <- H; clear H
      end;
    try destruct (file req);
    cbn [stores statusCode trace fst snd app]; settle; done.
Qed.

(** X7.  The probe tells whether a user was found and nothing about it: its
    answer is one of three constant texts, with status 500 when the call
    rejected and 200 otherwise. *)
Theorem probe_discloses_nothing (req : request) (s : S) :
  exists p,
    In p probe_bodies
    /\ responses (trace_of Testar_conexao req s) =
         [Response (if rejected (trace_of Testar_conexao req s)
                    then 500 else 200) p]
    /\ (p = Text "Conexão com MongoDB OK - Usuário encontrado." <->
        exists u s', User_findOne s = (Fulfilled (Some u), s')).
Proof.
  unfold_handler.
  destruct (User_findOne s) as [[[u|]|e] s'];
    cbn [stores statusCode trace fst snd app rejection];
    eexists; (split; [|split; [reflexivity|]]); cbn; eauto;
    split; try discriminate; try (intros (? & ? & [=])); eauto.
Qed.

(** X8.  Start-up: whatever becomes of the connection, nothing is thrown, no
    response is sent, and exactly one line reaches the logger, without a
    request: the info line when the connection was made, the error line
    with the reason when it was not. *)
Theorem startup_logs_and_goes_on
  (connect : S -> settled unit * S) (s : S) :
  (run (mongoose_connect connect) s).1 = Fulfilled tt
  /\ responses (trace (run (mongoose_connect connect) s).2) = []
  /\ logged (trace (run (mongoose_connect connect) s).2) =
       [match (connect s).1 with
        | Fulfilled _ => LogEvent info "MongoDB conectado" None None
        | Rejected e => LogEvent error "Erro ao conectar MongoDB" None (Some e)
        end].
Proof.
  unfold mongoose_connect, promise. unfold_handler.
  by destruct (connect s) as [[[]|e] s'].
Qed.

End HandlerDiscipline.

(** * The handlers on the store model *)

(** Case analysis on what the model looks at: the shape of the id, the
    casts, whether a service is down, whether the record or the bucket is
    there. *)
Ltac model_step :=
  cbn [mongo s3 users constructed mongo_down buckets s3_down
       stores statusCode trace fst snd app rejection negb
       validationError doc _id fields deletedCount Contents Buckets
       Bucket Key Body ContentType fmap option_fmap option_map] in *;
  try change (1 =? 0) with false in *;
  try change (0 =? 0) with true in *;
  cbn [stores statusCode trace fst snd app] in *.

Ltac model_cases :=
  model_step;
  repeat (match goal with
    | |- context [isValidObjectId ?d ?i] =>
        destruct (isValidObjectId d i) eqn:?
    | |- context [cast_fields ?d ?sch ?b] =>
        let set := fresh "set" in
        destruct (cast_fields d sch b) as [set [|? ?]] eqn:?
    | |- context [head (all_users ?m)] =>
        destruct (head (all_users m)) eqn:?
    | |- context [mongo_down (mongo ?c)] =>
        is_var c; destruct (mongo_down (mongo c)) eqn:?
    | |- context [s3_down (s3 ?c)] =>
        is_var c; destruct (s3_down (s3 c)) eqn:?
    | |- context [users (mongo ?c) !! ?k] =>
        is_var c; destruct (users (mongo c) !! k) eqn:?
    | |- context [buckets (s3 ?c) !! ?k] =>
        is_var c; destruct (buckets (s3 c) !! k) eqn:?
    end; model_step).

Section OnTheModel.
Variable drv : driver.

(** X9.  Reading after writing.  When an update is answered 200, reading the
    same id next is answered 200 with the same body: the record the update
    returned is the record that is stored. *)
Theorem update_then_read (req req' : request) (c : cloud) (v : json) :
  served drv Put_usuarios_id req c = [Response 200 (Json v)] ->
  param "id" req' = param "id" req ->
  served drv Get_usuarios_id req' (after drv Put_usuarios_id req c) =
    [Response 200 (Json v)].
Proof.
  intros Hput Hid.
  assert (Hafter :
    exists new,
      v = user_toJSON (User (param "id" req) new)
      /\ isValidObjectId drv (param "id" req) = true
      /\ mongo_down (mongo (after drv Put_usuarios_id req c)) = None
      /\ users (mongo (after drv Put_usuarios_id req c)) !! param "id" req
         = Some new).
  { revert Hput. unfold_model. model_cases; intros Hput;
      try discriminate Hput; try congruence. injection Hput as <-.
    eexists. split; [reflexivity|]. split; [reflexivity|].
    split; [reflexivity|]. apply lookup_insert_eq. }
  destruct Hafter as (new & -> & Hvalid & Hup & Hnew).
  revert Hup Hnew. generalize (after drv Put_usuarios_id req c).
  intros c' Hup Hnew. unfold_model.
  rewrite Hid, Hvalid, Hup, Hnew. reflexivity.
Qed.

(** X10.  When a creation is answered 201 and the identifier the document
    received is one the driver accepts, reading that identifier next is
    answered 200 with the body the creation sent. *)
Theorem create_then_read (req req' : request) (c : cloud) (v : json) :
  served drv Post_usuarios req c = [Response 201 (Json v)] ->
  param "id" req' = newObjectId drv (constructed (mongo c)) ->
  isValidObjectId drv (newObjectId drv (constructed (mongo c))) = true ->
  served drv Get_usuarios_id req' (after drv Post_usuarios req c) =
    [Response 200 (Json v)].
Proof.
  intros Hpost Hid Hvalid.
  assert (Hafter :
    exists f,
      v = user_toJSON (User (param "id" req') f)
      /\ mongo_down (mongo (after drv Post_usuarios req c)) = None
      /\ users (mongo (after drv Post_usuarios req c)) !! param "id" req'
         = Some f).
  { rewrite Hid. revert Hpost. unfold_model. model_cases; intros Hpost;
      try discriminate Hpost; try congruence. injection Hpost as <-.
    eexists. split; [reflexivity|]. split; [reflexivity|].
    apply lookup_insert_eq. }
  destruct Hafter as (f & -> & Hup & Hf). rewrite <- Hid in Hvalid.
  revert Hup Hf. generalize (after drv Post_usuarios req c).
  intros c' Hup Hf. unfold_model. rewrite Hvalid, Hup, Hf. reflexivity.
Qed.


(** X12.  The listing of the users is the collection: with the database up, the
    answer is 200 with an array that has one element for each stored
    record, its serialisation, and no other element; an empty collection
    is answered with the empty array.  Nothing is changed. *)
Theorem list_users_is_the_collection (req : request) (c : cloud) :
  mongo_down (mongo c) = None ->
  exists l : list json,
    served drv Get_usuarios req c = [Response 200 (Json (JArr l))]
    /\ length l = size (users (mongo c))
    /\ (forall v, In v l <->
                  exists id f, users (mongo c) !! id = Some f
                               /\ v = user_toJSON (User id f))
    /\ after drv Get_usuarios req c = c.
Proof.
  intros Hup. exists (user_toJSON <$> all_users (mongo c)).
  split; [|split; [|split]].
  - unfold_model. rewrite Hup. reflexivity.
  - unfold all_users. by rewrite !length_fmap, length_map_to_list.
  - intros v. rewrite <- list_elem_of_In, list_elem_of_fmap. unfold all_users.
    split.
    + intros (u & -> & Hu). apply list_elem_of_fmap in Hu as ([id f] & -> & Hin).
      apply elem_of_map_to_list in Hin. by exists id, f.
    + intros (id & f & Hin & ->). exists (User id f). split; [done|].
      apply list_elem_of_fmap. exists (id, f). split; [done|].
      by apply elem_of_map_to_list.
  - unfold_model. rewrite Hup. by destruct c as [[] []].
Qed.

(** X13.  The listing of a bucket is the bucket: with the object store up and
    the bucket there, the answer is 200 with an array that has one
    descriptor for each object of the bucket and no other element.
    Nothing is changed. *)
Theorem list_objects_is_the_bucket
  (req : request) (c : cloud) (objs : gmap string s3_object) :
  s3_down (s3 c) = None ->
  buckets (s3 c) !! param "bucketName" req = Some objs ->
  exists l : list json,
    served drv Get_buckets_bucketName req c = [Response 200 (Json (JArr l))]
    /\ length l = size objs
    /\ (forall v, In v l <->
                  exists k o, objs !! k = Some o
                              /\ v = object_descriptor (k, o))
    /\ after drv Get_buckets_bucketName req c = c.
Proof.
  intros Hup Hbucket. exists (object_descriptor <$> map_to_list objs).
  split; [|split; [|split]].
  - unfold_model. rewrite Hup, Hbucket. reflexivity.
  - by rewrite length_fmap, length_map_to_list.
  - intros v. rewrite <- list_elem_of_In, list_elem_of_fmap. split.
    + intros ([k o] & -> & Hin). apply elem_of_map_to_list in Hin.
      by exists k, o.
    + intros (k & o & Hin & ->). exists (k, o). split; [done|].
      by apply elem_of_map_to_list.
  - unfold_model. rewrite Hup, Hbucket. by destruct c as [[] []].
Qed.

(** X14.  Uploading under a name that is taken overwrites: after a second
    upload of a file with the same original name to the same bucket, the
    object store is as if the first upload had not happened. *)
Theorem upload_overwrites
  (req req' : request) (c : cloud) (f f' : uploaded_file) :
  file req = Some f -> file req' = Some f' ->
  originalname f = originalname f' ->
  param "bucketName" req = param "bucketName" req' ->
  s3 (after drv Post_buckets_upload req'
        (after drv Post_buckets_upload req c)) =
  s3 (after drv Post_buckets_upload req' c).
Proof.
  intros Hf Hf' Hname Hbucket. unfold_model.
  rewrite Hf, Hf', Hname, Hbucket. model_cases; try reflexivity; try congruence.
  rewrite lookup_insert_eq. model_step.
  by rewrite !insert_insert_eq.
Qed.

(** X15.  After an upload that was answered 200, the listing of the bucket is
    answered 200 with an array that holds the descriptor of the uploaded
    object: its key is the original name of the file, its size the length
    of the buffer. *)
Theorem upload_then_list
  (req req' : request) (c : cloud) (f : uploaded_file) (v : json) :
  file req = Some f ->
  served drv Post_buckets_upload req c = [Response 200 (Json v)] ->
  param "bucketName" req' = param "bucketName" req ->
  exists l : list json,
    served drv Get_buckets_bucketName req'
      (after drv Post_buckets_upload req c) = [Response 200 (Json (JArr l))]
    /\ In (JObj [("Key", JStr (originalname f));
                 ("Size", JNum (Z.of_nat (String.length (buffer f))))]) l.
Proof.
  intros Hf Hup Hbucket.
  assert (Hafter :
    exists objs,
      s3_down (s3 (after drv Post_buckets_upload req c)) = None
      /\ buckets (s3 (after drv Post_buckets_upload req c))
           !! param "bucketName" req = Some objs
      /\ objs !! originalname f = Some (S3Object (buffer f) (mimetype f))).
  { revert Hup. unfold_model. rewrite Hf. model_cases; intros Hup;
      try discriminate Hup; try congruence.
    eexists. split; [reflexivity|]. split; [apply lookup_insert_eq|].
    apply lookup_insert_eq. }
  destruct Hafter as (objs & Hdown & Hobjs & Hobj).
  revert Hdown Hobjs. generalize (after drv Post_buckets_upload req c).
  intros c' Hdown Hobjs.
  exists (object_descriptor <$> map_to_list objs). split.
  - unfold_model. rewrite Hbucket, Hdown, Hobjs. reflexivity.
  - apply list_elem_of_In, list_elem_of_fmap.
    exists (originalname f, S3Object (buffer f) (mimetype f)).
    split; [reflexivity|]. by apply elem_of_map_to_list.
Qed.

(** X16.  After a deletion that was answered 200, the listing of the bucket is
    answered 200 with an array in which no descriptor has the deleted
    key. *)
Theorem delete_then_list (req req' : request) (c : cloud) :
  served drv Delete_buckets_file req c = [file_removed] ->
  param "bucketName" req' = param "bucketName" req ->
  exists l : list json,
    served drv Get_buckets_bucketName req'
      (after drv Delete_buckets_file req c) = [Response 200 (Json (JArr l))]
    /\ forall o : s3_object,
         ~ In (object_descriptor (param "fileName" req, o)) l.
Proof.
  intros Hdel Hbucket.
  assert (Hafter :
    exists objs,
      s3_down (s3 (after drv Delete_buckets_file req c)) = None
      /\ buckets (s3 (after drv Delete_buckets_file req c))
           !! param "bucketName" req = Some objs
      /\ objs !! param "fileName" req = None).
  { revert Hdel. unfold_model. model_cases; intros Hdel;
      try discriminate Hdel; try congruence.
    eexists. split; [reflexivity|]. split; [apply lookup_insert_eq|].
    apply lookup_delete_eq. }
  destruct Hafter as (objs & Hdown & Hobjs & Hgone).
  revert Hdown Hobjs. generalize (after drv Delete_buckets_file req c).
  intros c' Hdown Hobjs.
  exists (object_descriptor <$> map_to_list objs). split.
  - unfold_model. rewrite Hbucket, Hdown, Hobjs. reflexivity.
  - intros o Hin. apply list_elem_of_In, list_elem_of_fmap in Hin
      as ([k o'] & Heq & Hin).
    apply elem_of_map_to_list in Hin. injection Heq as <- _.
    congruence.
Qed.

(** X17.  What a request leaves alone.  A request on a user route leaves the
    object store as it was, and a request on a bucket route leaves the
    database as it was.  A request on a route bound with [app.get] leaves
    both as they were.  A request that is not answered 200 or 201 leaves
    every record and every object as it was. *)
Theorem requests_leave_alone (r : route) (req : request) (c : cloud) :
  (if user_route r
   then s3 (after drv r req c) = s3 c
   else mongo (after drv r req c) = mongo c)
  /\ ((exists p, ("GET", p, r) ∈ routes) -> after drv r req c = c)
  /\ (Forall (fun resp => status resp <> 200 /\ status resp <> 201)
             (served drv r req c) ->
      users (mongo (after drv r req c)) = users (mongo c)
      /\ buckets (s3 (after drv r req c)) = buckets (s3 c)).
Proof.
  split; [|split].
  - destruct r; unfold_model; try destruct (file req);
      model_cases; reflexivity.
  - intros [p Hp]. apply list_elem_of_In in Hp.
    destruct r; cbn [routes In] in Hp;
      try (exfalso; intuition congruence);
      clear Hp; unfold_model; model_cases; by destruct c as [[] []].
  - destruct r; unfold_model; try destruct (file req);
      model_cases; intros Hall; try (split; reflexivity);
      exfalso; apply Forall_cons in Hall as [[H200 H201] _];
      cbn in H200, H201; lia.
Qed.

(** X18.  One record at a time.  A request changes at most one record of the
    collection: there is an identifier such that the record under every
    other identifier is as it was.  Likewise it changes at most one
    bucket, and within it at most one key. *)
Theorem one_record_at_a_time (r : route) (req : request) (c : cloud) :
  (exists id : string, forall id' : string,
      id' <> id ->
      users (mongo (after drv r req c)) !! id' = users (mongo c) !! id')
  /\ (exists b k : string, forall b' k' : string,
        (b', k') <> (b, k) ->
        (buckets (s3 (after drv r req c)) !! b') ≫= (.!! k') =
        (buckets (s3 c) !! b') ≫= (.!! k')).
Proof.
  split.
  - destruct r; unfold_model;
      try (exists ""; intros id' _; try destruct (file req);
           model_cases; first [reflexivity | congruence]).
    + exists (newObjectId drv (constructed (mongo c))). intros id' Hne.
      model_cases; try reflexivity; try congruence;
        rewrite lookup_insert_ne by congruence; done.
    + exists (param "id" req). intros id' Hne.
      model_cases; try reflexivity; try congruence;
        rewrite lookup_insert_ne by congruence; done.
    + exists (param "id" req). intros id' Hne.
      model_cases; try reflexivity; try congruence;
        rewrite lookup_delete_ne by congruence; done.
  - destruct r; unfold_model;
      try (exists "", ""; intros b' k' _; model_cases;
           first [reflexivity | congruence]).
    + destruct (file req) as [f|];
        [|exists "", ""; intros b' k' _; model_cases; reflexivity].
      exists (param "bucketName" req), (originalname f). intros b' k' Hne.
      model_step. destruct (s3_down (s3 c)); [reflexivity|].
      destruct (buckets (s3 c) !! param "bucketName" req) as [objs|] eqn:Hobjs;
        model_step; [|reflexivity].
      destruct (decide (b' = param "bucketName" req)) as [->|Hb].
      * rewrite lookup_insert_eq, Hobjs. cbn.
        rewrite lookup_insert_ne by congruence. reflexivity.
      * by rewrite lookup_insert_ne.
    + exists (param "bucketName" req), (param "fileName" req). intros b' k' Hne.
      model_step. destruct (s3_down (s3 c)); [reflexivity|].
      destruct (buckets (s3 c) !! param "bucketName" req) as [objs|] eqn:Hobjs;
        model_step; [|reflexivity].
      destruct (decide (b' = param "bucketName" req)) as [->|Hb].
      * rewrite lookup_insert_eq, Hobjs. cbn.
        rewrite lookup_delete_ne by congruence. reflexivity.
      * by rewrite lookup_insert_ne.
Qed.

End OnTheModel.

(** * The further properties at work *)

Lemma status_codes_by_route_witness :
  Forall (fun resp => status resp <> 404)
         (served hex_driver Get_buckets_bucketName (bucket_request "nope")
                 small_cloud).
Proof.
  exact (proj1 (proj2 (@status_codes_by_route cloud (cloud_documents hex_driver)
                         cloud_objects Get_buckets_bucketName
                         (bucket_request "nope") small_cloud))
           eq_refl).
Defined.

Lemma handler_reads_only_its_inputs_witness :
  served hex_driver Get_usuarios (list_request "/usuarios" (JObj [])) small_cloud
  = served hex_driver Get_usuarios
      (list_request "/usuarios?limit=1" (JObj [("limit", JNum 1)])) small_cloud.
Proof.
  exact (proj1 (@handler_reads_only_its_inputs cloud (cloud_documents hex_driver)
                  cloud_objects Get_usuarios
                  (list_request "/usuarios" (JObj []))
                  (list_request "/usuarios?limit=1" (JObj [("limit", JNum 1)]))
                  small_cloud I)).
Defined.

Lemma probe_discloses_nothing_witness :
  exists p,
    In p probe_bodies
    /\ served hex_driver Testar_conexao probe_request small_cloud =
         [Response 200 p].
Proof.
  destruct (@probe_discloses_nothing cloud (cloud_documents hex_driver)
              cloud_objects probe_request small_cloud)
    as (p & Hin & Hsent & _).
  exists p. split; [exact Hin | exact Hsent].
Defined.

Lemma update_then_read_witness :
  served hex_driver Get_usuarios_id (user_request "GET" ana_id (JObj []))
    (after hex_driver Put_usuarios_id
       (user_request "PUT" ana_id (JObj [("nome", JStr "Bia")])) small_cloud)
  = [Response 200
       (Json (JObj [("_id", JStr ana_id); ("nome", JStr "Bia");
                    ("email", JStr "ana@x.com")]))].
Proof.
  apply (update_then_read hex_driver
           (user_request "PUT" ana_id (JObj [("nome", JStr "Bia")]))
           (user_request "GET" ana_id (JObj [])) small_cloud).
  - vm_compute. reflexivity.
  - vm_compute. reflexivity.
Defined.

Lemma create_then_read_witness :
  served hex_driver Get_usuarios_id (user_request "GET" ana_id (JObj []))
    (after hex_driver Post_usuarios
       (create_request (JObj [("nome", JStr "Ana"); ("email", JStr "ana@x.com")]))
       empty_cloud)
  = [Response 200
       (Json (JObj [("_id", JStr ana_id); ("nome", JStr "Ana");
                    ("email", JStr "ana@x.com")]))].
Proof.
  apply (create_then_read hex_driver
           (create_request (JObj [("nome", JStr "Ana");
                                  ("email", JStr "ana@x.com")]))
           (user_request "GET" ana_id (JObj [])) empty_cloud).
  - vm_compute. reflexivity.
  - vm_compute. reflexivity.
  - vm_compute. reflexivity.
Defined.


Lemma list_users_is_the_collection_witness :
  exists l : list json,
    served hex_driver Get_usuarios (list_request "/usuarios" (JObj []))
           small_cloud = [Response 200 (Json (JArr l))]
    /\ length l = 1%nat.
Proof.
  destruct (list_users_is_the_collection hex_driver
              (list_request "/usuarios" (JObj [])) small_cloud eq_refl)
    as (l & Hsent & Hlen & _).
  exists l. split; [exact Hsent | exact Hlen].
Defined.

Lemma list_objects_is_the_bucket_witness :
  exists l : list json,
    served hex_driver Get_buckets_bucketName (bucket_request "my-bucket")
           stocked_cloud = [Response 200 (Json (JArr l))]
    /\ In (JObj [("Key", JStr "a.txt"); ("Size", JNum 5)]) l.
Proof.
  destruct (list_objects_is_the_bucket hex_driver
              (bucket_request "my-bucket") stocked_cloud
              {[ "a.txt" := S3Object "hello" "text/plain" ]} eq_refl eq_refl)
    as (l & Hsent & _ & Hin & _).
  exists l. split; [exact Hsent|].
  apply Hin. exists "a.txt", (S3Object "hello" "text/plain").
  split; reflexivity.
Defined.

Lemma upload_overwrites_witness :
  s3 (after hex_driver Post_buckets_upload
        (upload_request "my-bucket" (Some a_txt_again))
        (after hex_driver Post_buckets_upload
           (upload_request "my-bucket" (Some a_txt)) small_cloud))
  = s3 (after hex_driver Post_buckets_upload
          (upload_request "my-bucket" (Some a_txt_again)) small_cloud).
Proof.
  apply (upload_overwrites hex_driver
           (upload_request "my-bucket" (Some a_txt))
           (upload_request "my-bucket" (Some a_txt_again))
           small_cloud a_txt a_txt_again); reflexivity.
Defined.

Lemma upload_then_list_witness :
  exists l : list json,
    served hex_driver Get_buckets_bucketName (bucket_request "my-bucket")
      (after hex_driver Post_buckets_upload
         (upload_request "my-bucket" (Some a_txt)) small_cloud)
    = [Response 200 (Json (JArr l))]
    /\ In (JObj [("Key", JStr "a.txt"); ("Size", JNum 5)]) l.
Proof.
  apply (upload_then_list hex_driver
           (upload_request "my-bucket" (Some a_txt))
           (bucket_request "my-bucket") small_cloud a_txt
           (JObj [("message", JStr "Upload concluído.");
                  ("data", JObj [("Bucket", JStr "my-bucket");
                                 ("Key", JStr "a.txt")])])).
  - reflexivity.
  - vm_compute. reflexivity.
  - vm_compute. reflexivity.
Defined.

Lemma delete_then_list_witness :
  exists l : list json,
    served hex_driver Get_buckets_bucketName (bucket_request "my-bucket")
      (after hex_driver Delete_buckets_file
         (delete_file_request "my-bucket" "a.txt") stocked_cloud)
    = [Response 200 (Json (JArr l))]
    /\ ~ In (JObj [("Key", JStr "a.txt"); ("Size", JNum 5)]) l.
Proof.
  destruct (delete_then_list hex_driver
              (delete_file_request "my-bucket" "a.txt")
              (bucket_request "my-bucket") stocked_cloud)
    as (l & Hsent & Hnot).
  - vm_compute. reflexivity.
  - vm_compute. reflexivity.
  - exists l. split; [exact Hsent|].
    exact (Hnot (S3Object "hello" "text/plain")).
Defined.

Lemma requests_leave_alone_witness :
  after hex_driver Get_usuarios_id (user_request "GET" ana_id (JObj []))
        small_cloud = small_cloud.
Proof.
  apply (proj1 (proj2 (requests_leave_alone hex_driver Get_usuarios_id
                         (user_request "GET" ana_id (JObj [])) small_cloud))).
  exists "/usuarios/:id". unfold routes.
  do 3 apply list_elem_of_further. apply list_elem_of_here.
Defined.

Lemma one_record_at_a_time_witness :
  exists id : string, forall id' : string,
    id' <> id ->
    users (mongo (after hex_driver Put_usuarios_id
                    (user_request "PUT" ana_id (JObj [("nome", JStr "Bia")]))
                    small_cloud)) !! id'
    = users (mongo small_cloud) !! id'.
Proof.
  exact (proj1 (one_record_at_a_time hex_driver Put_usuarios_id
                  (user_request "PUT" ana_id (JObj [("nome", JStr "Bia")]))
                  small_cloud)).
Defined.
